(** * Traffic simulator: the Durable Object and the Worker in front of it

    A shallow embedding of [src/traffic-simulator.js] (class
    [TrafficSimulator]) and of the handlers of the Worker that stand in
    front of it ([handleSimulate], [handleGetStatus],
    [limitStoredMetrics]), followed by the properties of the
    specification that the code decides.

    Conventions of the embedding.
    - JavaScript numbers are exact: integers are [Z], the other numbers are
      rationals [Q].  [Math.round x] is [floor (x + 1/2)] and
      [Math.floor x] is [floor x].
    - [Date.now()] and [Math.random()] read two streams that the
      environment supplies; the [World] counts how many readings were
      taken, so every call sees the next one.
    - An [async] method is a function [World -> Completion A * World]: it
      returns or throws, and the [World] it leaves behind is kept in both
      cases (an assignment made before a rejected [await] stays made).
    - Every effect that leaves the isolate (clock, random source, durable
      storage, Workers AI, D1) is appended to [log] in program order. *)

From Stdlib Require Import ZArith QArith Qround Lqa String Ascii List Lia DecimalString.
From stdpp Require Import base list sorting strings.
Import ListNotations.

Set Warnings "-register-all".
Open Scope Z_scope.

(** ** JavaScript values, as far as the handlers inspect them *)

Inductive JsValue : Type :=
| JUndefined
| JNull
| JBool (b : bool)
| JNum (q : Q)
| JStr (s : string)
| JArr (items : list JsValue)
| JObj (props : list (string * JsValue)).

(** Own property [k] of an object, first binding; [undefined] when absent. *)
Fixpoint own_property (k : string) (props : list (string * JsValue)) : JsValue :=
  match props with
  | [] => JUndefined
  | (k', v) :: rest => if String.eqb k k' then v else own_property k rest
  end.

(** [v.k] for one of the property names the handlers read ([type],
    [simulationId], [response], [result], [output], [text]): none of them
    exists on a primitive or on an array. *)
Definition get_property (v : JsValue) (k : string) : JsValue :=
  match v with
  | JObj props => own_property k props
  | _ => JUndefined
  end.

(** [v?.k] *)
Definition optional_chain (v : JsValue) (k : string) : JsValue :=
  match v with
  | JUndefined | JNull => JUndefined
  | _ => get_property v k
  end.

(** ToBoolean *)
Definition truthy (v : JsValue) : bool :=
  match v with
  | JUndefined | JNull => false
  | JBool b => b
  | JNum q => negb (Qeq_bool q 0)
  | JStr s => negb (String.eqb s "")
  | JArr _ | JObj _ => true
  end.

(** [a || b] *)
Definition js_or (a b : JsValue) : JsValue := if truthy a then a else b.

(** [a ?? b] on a field of a stored object: [None] is [null]/[undefined]. *)
Definition nullish {A : Type} (a : option A) (b : A) : A :=
  match a with Some x => x | None => b end.

(** ** Strings *)

(** Code units below 256 that [String.prototype.trim] removes: tab, line
    feed, vertical tab, form feed, carriage return, space, no-break space. *)
Definition is_white_space (c : ascii) : bool :=
  let n := nat_of_ascii c in
  ((9 <=? n)%nat && (n <=? 13)%nat) || (n =? 32)%nat || (n =? 160)%nat.

Fixpoint trim_start (s : string) : string :=
  match s with
  | EmptyString => EmptyString
  | String c rest => if is_white_space c then trim_start rest else s
  end.

(** Drops the white space at the end: a character is kept when it is not
    white space or when something is kept after it. *)
Fixpoint trim_end (s : string) : string :=
  match s with
  | EmptyString => EmptyString
  | String c rest =>
      match trim_end rest with
      | EmptyString => if is_white_space c then EmptyString else String c EmptyString
      | kept => String c kept
      end
  end.

Definition trim (s : string) : string := trim_end (trim_start s).

(** [s.slice(from, to)] for [0 <= from <= to]. *)
Definition slice (from to : nat) (s : string) : string :=
  String.substring from (to - from) s.

(** [s.endsWith(suffix)] *)
Definition endsWith (s suffix : string) : bool :=
  let n := String.length s in
  let m := String.length suffix in
  (m <=? n)%nat && String.eqb (String.substring (n - m) m s) suffix.

(** [s.startsWith(prefix)] *)
Fixpoint startsWith (s prefix : string) {struct prefix} : bool :=
  match prefix with
  | EmptyString => true
  | String c prefix' =>
      match s with
      | EmptyString => false
      | String d s' => Ascii.eqb c d && startsWith s' prefix'
      end
  end.

(** Number-to-string conversion of an integer. *)
Definition string_of_Z (z : Z) : string := NilZero.string_of_int (Z.to_int z).

(** Number-to-string conversion of a number with at most one decimal, which
    is what [roundSuccess] produces: [98] prints as "98", [98.7] as "98.7". *)
Definition string_of_rate (q : Q) : string :=
  let tenths := Qfloor (q * 10) in
  if tenths mod 10 =? 0 then string_of_Z (tenths / 10)
  else string_of_Z (tenths / 10) +:+ "." +:+ string_of_Z (tenths mod 10).

(** ** Math *)

Definition Math_round (x : Q) : Z := Qfloor (x + (1 # 2)).
Definition Math_floor (x : Q) : Z := Qfloor x.
Definition Math_max (a b : Q) : Q := if Qle_bool a b then b else a.
Definition Math_min (a b : Q) : Q := if Qle_bool a b then a else b.

(** ** Data of the simulator *)

Record Snapshot : Type := {
  latency : Z;
  successRate : Q;
  requestsHandled : Z;
  errors : Z
}.

Record Metrics : Type := {
  cloudflare : Snapshot;
  origin : Snapshot
}.

(** The object literal [{ id, type, startTime, isActive }] built by
    [handleSimulateRequest]. *)
Record Simulation : Type := {
  id : string;
  type : string;
  startTime : Z;
  isActive : bool
}.

(** The value kept under the key ['state'] of the durable storage.  A field
    is [None] when the stored object has it [null] or lacks it. *)
Record StoredState : Type := {
  stored_currentSimulation : option Simulation;
  stored_metrics : option Metrics
}.

(** [this.state.storage]: what is stored under ['state'], and whether the
    next [put] is accepted. *)
Record Storage : Type := {
  contents : option StoredState;
  writable : bool
}.

(** The twelve values bound to the INSERT of [handleSimulate];
    [ai_explanation] is the one nullable column. *)
Record RowValues : Type := {
  simulation_id : string;
  timestamp : Z;
  simulation_type : string;
  cf_latency_ms : Z;
  cf_success_rate : Q;
  cf_requests_handled : Z;
  cf_errors : Z;
  origin_latency_ms : Z;
  origin_success_rate : Q;
  origin_requests_handled : Z;
  origin_errors : Z;
  ai_explanation : option string
}.

(** One row of the D1 table [simulation_metrics]: the AUTOINCREMENT key
    and the inserted values. *)
Record HistoryRow : Type := {
  row_id : Z;
  values : RowValues
}.

(** [env.DB]: the rows in insertion order, the next AUTOINCREMENT key, and
    whether the next INSERT and the next DELETE are accepted. *)
Record D1 : Type := {
  rows : list HistoryRow;
  next_id : Z;
  accepts_insert : bool;
  accepts_delete : bool
}.

Inductive Error : Type :=
| TypeError (what : string)
| StorageError                 (* [storage.put] rejected *)
| D1Error                      (* a D1 statement rejected *)
| AIError                      (* [AI.run] rejected *)
| AbortError.                  (* [AI.run] rejected through the abort signal *)

(** How [await this.env.AI.run(...)] settles.  A call that never settles
    has no place here: how long the call takes is not part of the model. *)
Inductive AISettlement : Type :=
| Resolves (aiResult : JsValue)
| Rejects                      (* the call failed *)
| Aborted.                     (* rejected through the abort signal *)

(** [this.env.AI] *)
Inductive AIBinding : Type :=
| NoAI                                   (* [!this.env.AI] *)
| NotCallable                            (* [typeof this.env.AI.run !== 'function'] *)
| Runs (run : string -> AISettlement).   (* by prompt *)

(** What the environment supplies. *)
Record Env : Type := {
  AI : AIBinding;
  clock : nat -> Z;                 (* successive readings of [Date.now()] *)
  random : nat -> Q;                (* successive results of [Math.random()] *)
  toString36 : Q -> string;         (* [Number.prototype.toString(36)] *)
  order_by_timestamp_desc : list HistoryRow -> list HistoryRow
                                    (* D1's [ORDER BY timestamp DESC] *)
}.

(** A request as the handlers read it: [request.json()] fails on [None]. *)
Record Request : Type := {
  method : string;
  pathname : string;
  body : option JsValue
}.

Inductive Event : Type :=
| EvDateNow (t : Z)
| EvRandom (r : Q)
| EvStoragePut (value : StoredState) (accepted : bool)
| EvAIRun (prompt : string)
| EvStubFetch (request : Request)
| EvInsert (bound : RowValues) (accepted : bool)
| EvDelete (accepted : bool).

(** The fields of [this] that the handlers assign. *)
Record TrafficSimulator : Type := {
  currentSimulation : option Simulation;
  metrics : Metrics
}.

Record World : Type := {
  this : TrafficSimulator;
  storage : Storage;
  DB : D1;
  ticks : nat;
  draws : nat;
  log : list Event
}.

(** ** Completions *)

Inductive Completion (A : Type) : Type :=
| Return (a : A)
| Throw (e : Error).
Arguments Return {A} a.
Arguments Throw {A} e.

Definition Js (A : Type) : Type := World -> Completion A * World.

Definition ret {A : Type} (a : A) : Js A := fun w => (Return a, w).
Definition throw {A : Type} (e : Error) : Js A := fun w => (Throw e, w).
Definition bind {A B : Type} (m : Js A) (k : A -> Js B) : Js B :=
  fun w =>
    match m w with
    | (Return a, w') => k a w'
    | (Throw e, w') => (Throw e, w')
    end.

(** [try { body } catch (error) { handler }] *)
Definition try_catch {A : Type} (body : Js A) (handler : Error -> Js A) : Js A :=
  fun w =>
    match body w with
    | (Return a, w') => (Return a, w')
    | (Throw e, w') => handler e w'
    end.

Declare Scope js_scope.
Delimit Scope js_scope with js.
Notation "x <- m ;; k" := (bind m (fun x => k))
  (at level 100, m at next level, right associativity) : js_scope.
Notation "m ;;; k" := (bind m (fun _ => k))
  (at level 100, right associativity) : js_scope.
Open Scope js_scope.

(** The world after the events [es] were appended to its log. *)
Definition logged (es : list Event) (w : World) : World :=
  {| this := this w; storage := storage w; DB := DB w;
     ticks := ticks w; draws := draws w; log := log w ++ es |}.

Definition emit (e : Event) : Js unit :=
  fun w => (Return tt, logged [e] w).

(** [Date.now()] *)
Definition Date_now (env : Env) : Js Z :=
  fun w =>
    let t := clock env (ticks w) in
    (Return t,
     {| this := this w; storage := storage w; DB := DB w;
        ticks := S (ticks w); draws := draws w; log := log w ++ [EvDateNow t] |}).

(** [Math.random()] *)
Definition Math_random (env : Env) : Js Q :=
  fun w =>
    let r := random env (draws w) in
    (Return r,
     {| this := this w; storage := storage w; DB := DB w;
        ticks := ticks w; draws := S (draws w); log := log w ++ [EvRandom r] |}).

(** ** Metric generator *)

Definition roundLatency (value : Q) : Z := Math_round value.

Definition roundSuccess (value : Q) : Q :=
  inject_Z (Math_round (Math_max 0 (Math_min 100 value) * 10)) / 10.

Definition getInitialMetrics : Metrics :=
  {| cloudflare := {| latency := 100; successRate := 100; requestsHandled := 0; errors := 0 |};
     origin := {| latency := 100; successRate := 100; requestsHandled := 0; errors := 0 |} |}.

Definition generate_normal (env : Env) : Js Metrics :=
  r1 <- Math_random env ;;
  r2 <- Math_random env ;;
  ret {| cloudflare := {| latency := roundLatency (95 + r1 * 10);
                          successRate := 100;
                          requestsHandled := 10;
                          errors := 0 |};
         origin := {| latency := roundLatency (100 + r2 * 20);
                      successRate := 100;
                      requestsHandled := 10;
                      errors := 0 |} |}.

Definition generate_spike (env : Env) : Js Metrics :=
  r1 <- Math_random env ;;
  r2 <- Math_random env ;;
  r3 <- Math_random env ;;
  r4 <- Math_random env ;;
  r5 <- Math_random env ;;
  ret {| cloudflare := {| latency := roundLatency (120 + r1 * 30);
                          successRate := roundSuccess (98 + r2 * 2);
                          requestsHandled := 500;
                          errors := Math_floor (r3 * 10) |};
         origin := {| latency := roundLatency (2000 + r4 * 1000);
                      successRate := roundSuccess (40 + r5 * 20);
                      requestsHandled := 300;
                      errors := 200 |} |}.

Definition generate_ddos (env : Env) : Js Metrics :=
  r1 <- Math_random env ;;
  r2 <- Math_random env ;;
  r3 <- Math_random env ;;
  r4 <- Math_random env ;;
  r5 <- Math_random env ;;
  ret {| cloudflare := {| latency := roundLatency (150 + r1 * 50);
                          successRate := roundSuccess (95 + r2 * 3);
                          requestsHandled := 10000;
                          errors := Math_floor (r3 * 500) |};
         origin := {| latency := roundLatency (5000 + r4 * 2000);
                      successRate := roundSuccess (r5 * 10);
                      requestsHandled := 500;
                      errors := 9500 |} |}.

(** [generators[type]()]: the three own keys of [generators]; any other
    key has no generator behind it and the call throws. *)
Definition generateMetrics (env : Env) (type : string) : Js Metrics :=
  if String.eqb type "normal" then generate_normal env
  else if String.eqb type "spike" then generate_spike env
  else if String.eqb type "ddos" then generate_ddos env
  else throw (TypeError "generators[type] is not a function").

(** ** The Durable Object [TrafficSimulator] *)

Definition set_this (t : TrafficSimulator) (w : World) : World :=
  {| this := t; storage := storage w; DB := DB w;
     ticks := ticks w; draws := draws w; log := log w |}.

Definition set_storage (s : Storage) (w : World) : World :=
  {| this := this w; storage := s; DB := DB w;
     ticks := ticks w; draws := draws w; log := log w |}.

Definition set_DB (d : D1) (w : World) : World :=
  {| this := this w; storage := storage w; DB := d;
     ticks := ticks w; draws := draws w; log := log w |}.

(** [this.metrics = m] *)
Definition assign_metrics (m : Metrics) : Js unit :=
  fun w => (Return tt,
            set_this {| currentSimulation := currentSimulation (this w); metrics := m |} w).

(** [this.currentSimulation = s] *)
Definition assign_currentSimulation (s : option Simulation) : Js unit :=
  fun w => (Return tt,
            set_this {| currentSimulation := s; metrics := metrics (this w) |} w).

(** [await this.state.storage.put('state', value)] *)
Definition storage_put (value : StoredState) : Js unit :=
  fun w =>
    if writable (storage w)
    then emit (EvStoragePut value true)
           (set_storage {| contents := Some value; writable := true |} w)
    else match emit (EvStoragePut value false) w with
         | (_, w') => (Throw StorageError, w')
         end.

Definition persistState : Js unit :=
  fun w =>
    storage_put {| stored_currentSimulation := currentSimulation (this w);
                   stored_metrics := Some (metrics (this w)) |} w.

(** The constructor: [currentSimulation = null], [metrics =
    getInitialMetrics()], then, inside [blockConcurrencyWhile], the stored
    state when there is one. *)
Definition constructor (s : Storage) : TrafficSimulator :=
  match contents s with
  | Some stored =>
      {| currentSimulation := stored_currentSimulation stored;
         metrics := nullish (stored_metrics stored) getInitialMetrics |}
  | None =>
      {| currentSimulation := None; metrics := getInitialMetrics |}
  end.

(** A cold start: the object is built again over the same storage. *)
Definition restart (w : World) : World := set_this (constructor (storage w)) w.

(** [fallback[type]]; [None] is [undefined]. *)
Definition fallback (type : string) : option string :=
  if String.eqb type "normal" then
    Some "Normal traffic conditions with both systems performing optimally. Cloudflare provides marginal improvements through caching and optimization."
  else if String.eqb type "spike" then
    Some "Traffic surge overwhelming unprotected origin while Cloudflare absorbs the load. Clear demonstration of DDoS protection and auto-scaling capabilities."
  else if String.eqb type "ddos" then
    Some "Massive DDoS attack completely disabling unprotected origin. Cloudflare successfully mitigating 99.5% of malicious traffic while maintaining service availability."
  else None.

Definition newline : string := String (ascii_of_nat 10) EmptyString.

Definition build_prompt (type : string) (m : Metrics) : string :=
  "Explain this traffic simulation in 2 sentences for a technical audience:"
  +:+ newline +:+
  "Type: " +:+ type
  +:+ newline +:+
  "Cloudflare: " +:+ string_of_Z (latency (cloudflare m)) +:+ "ms latency, "
    +:+ string_of_rate (successRate (cloudflare m)) +:+ "% success"
  +:+ newline +:+
  "Origin: " +:+ string_of_Z (latency (origin m)) +:+ "ms latency, "
    +:+ string_of_rate (successRate (origin m)) +:+ "% success".

(** [await this.env.AI.run(model, { prompt }, { signal })]: one call. *)
Definition AI_run (run : string -> AISettlement) (prompt : string) : Js JsValue :=
  emit (EvAIRun prompt) ;;;
  match run prompt with
  | Resolves aiResult => ret aiResult
  | Rejects => throw AIError
  | Aborted => throw AbortError
  end.

(** [aiResult?.response || aiResult?.result?.response ||
     aiResult?.result?.output || aiResult?.result?.text || ''] *)
Definition responseText (aiResult : JsValue) : JsValue :=
  js_or
    (js_or
       (js_or
          (js_or (optional_chain aiResult "response")
                 (optional_chain (optional_chain aiResult "result") "response"))
          (optional_chain (optional_chain aiResult "result") "output"))
       (optional_chain (optional_chain aiResult "result") "text"))
    (JStr "").

(** [typeof responseText === 'string' ? responseText.trim() : ''] *)
Definition trimmed (text : JsValue) : string :=
  match text with
  | JStr s => trim s
  | _ => ""
  end.

(** The [finally] clause only clears the timer and is left out. *)
Definition getAIExplanation (env : Env) (type : string) (m : Metrics) : Js (option string) :=
  match AI env with
  | NoAI | NotCallable => ret (fallback type)
  | Runs run =>
      let prompt := build_prompt type m in
      try_catch
        (aiResult <- AI_run run prompt ;;
         let t := trimmed (responseText aiResult) in
         ret (if String.eqb t "" then fallback type else Some t))
        (fun _ => ret (fallback type))
  end.

(** Bodies of the responses. *)
Inductive Payload : Type :=
| ErrorPayload (error : string) (message : option string)
| SimulatePayload (simulation : Simulation) (metrics : Metrics)
                  (aiExplanation : option string) (timestamp : Z)
| StatusPayload (simulation : option Simulation) (metrics : Metrics) (timestamp : Z)
| ApiSimulatePayload (simulationId type : string) (metrics : Metrics)
                     (aiExplanation : option string) (timestamp : Z)
| Stamped (data : Payload) (timestamp : Z).      (* [{ ...data, timestamp }] *)

Record Response : Type := {
  status : Z;
  payload : Payload
}.

Definition validTypes : list string := ["normal"; "spike"; "ddos"].

(** [list.includes(v)]: only a string can equal one of the strings. *)
Definition includes (l : list string) (v : JsValue) : bool :=
  match v with
  | JStr s => existsb (String.eqb s) l
  | _ => false
  end.

(** [typeof v === 'string'] *)
Definition is_string (v : JsValue) : bool :=
  match v with JStr _ => true | _ => false end.

(** The string behind a value that passed [is_string] or [includes]. *)
Definition string_value (v : JsValue) : string :=
  match v with JStr s => s | _ => "" end.

(** [const { a, b } = body]: throws on [null] and [undefined]. *)
Definition destructure (body : JsValue) : Js JsValue :=
  match body with
  | JUndefined | JNull => throw (TypeError "Cannot destructure")
  | _ => ret body
  end.

Definition handleSimulateRequest (env : Env) (request : Request) : Js Response :=
  match body request with
  | None =>
      ret {| status := 400;
             payload := ErrorPayload "Invalid request body" (Some "Expected JSON payload") |}
  | Some parsed =>
      b <- destructure parsed ;;
      let type_v := get_property b "type" in
      let simulationId_v := get_property b "simulationId" in
      if negb (includes validTypes type_v) || negb (is_string simulationId_v)
      then ret {| status := 400;
                  payload := ErrorPayload "Invalid type"
                    (Some "Type must be 'normal', 'spike', or 'ddos' with a simulationId string") |}
      else
        let type := string_value type_v in
        let simulationId := string_value simulationId_v in
        timestamp <- Date_now env ;;
        let simulation := {| id := simulationId; type := type;
                             startTime := timestamp; isActive := true |} in
        m <- generateMetrics env type ;;
        assign_metrics m ;;;
        assign_currentSimulation (Some simulation) ;;;
        persistState ;;;
        aiExplanation <- getAIExplanation env type m ;;
        ret {| status := 200;
               payload := SimulatePayload simulation m aiExplanation timestamp |}
  end.

(** [x || 0] on a number *)
Definition or_zero (x : Z) : Z := if x =? 0 then 0 else x.

Definition handleStatusRequest (env : Env) : Js Response :=
  now <- Date_now env ;;
  fun w =>
    let simulation :=
      match currentSimulation (this w) with
      | Some current =>
          Some {| id := id current; type := type current;
                  startTime := startTime current;
                  isActive := now - or_zero (startTime current) <? 30 * 1000 |}
      | None => None
      end in
    (Return {| status := 200;
               payload := StatusPayload simulation (metrics (this w)) now |}, w).

(** [fetch].  [await this.ready] has nothing to wait for: the object of a
    [World] is a restored one (see [restart]).  The handlers are [async]
    and their promise is returned without [await], so the [catch] clause
    around the dispatch never sees a rejection of theirs; it is left out. *)
Definition DO_fetch (env : Env) (request : Request) : Js Response :=
  if String.eqb (method request) "POST" && endsWith (pathname request) "/simulate"
  then handleSimulateRequest env request
  else if String.eqb (method request) "GET" && endsWith (pathname request) "/status"
  then handleStatusRequest env
  else ret {| status := 404; payload := ErrorPayload "Not found" None |}.

(** ** The Worker in front of the Durable Object *)

(** [Object.prototype.hasOwnProperty.call(data, 'timestamp')] *)
Definition has_timestamp (data : Payload) : bool :=
  match data with
  | ErrorPayload _ _ => false
  | _ => true
  end.

Definition jsonResponse (env : Env) (data : Payload) (status : Z) : Js Response :=
  if (400 <=? status) || has_timestamp data
  then ret {| status := status; payload := data |}
  else
    now <- Date_now env ;;
    ret {| status := status; payload := Stamped data now |}.

(** [response.ok] *)
Definition ok (r : Response) : bool := (200 <=? status r) && (status r <=? 299).

(** [errorPayload?.message || otherwise] *)
Definition message_or (r : Response) (otherwise : string) : string :=
  match payload r with
  | ErrorPayload _ (Some m) => if String.eqb m "" then otherwise else m
  | _ => otherwise
  end.

(** [getSimulatorStub(env).fetch(...)]: the one object named ['global']. *)
Definition stub_fetch (env : Env) (request : Request) : Js Response :=
  emit (EvStubFetch request) ;;;
  DO_fetch env request.

(** [INSERT INTO simulation_metrics (...) VALUES (...)] *)
Definition insert_row (bound : RowValues) (db : D1) : D1 :=
  {| rows := rows db ++ [{| row_id := next_id db; values := bound |}];
     next_id := next_id db + 1;
     accepts_insert := accepts_insert db;
     accepts_delete := accepts_delete db |}.

Definition DB_insert (bound : RowValues) : Js unit :=
  fun w =>
    if accepts_insert (DB w)
    then emit (EvInsert bound true) (set_DB (insert_row bound (DB w)) w)
    else match emit (EvInsert bound false) w with
         | (_, w') => (Throw D1Error, w')
         end.

Definition retention_cap : nat := 500.

(** [SELECT id FROM simulation_metrics ORDER BY timestamp DESC LIMIT 500] *)
Definition newest_ids (env : Env) (table : list HistoryRow) : list Z :=
  row_id <$> take retention_cap (order_by_timestamp_desc env table).

(** [DELETE FROM simulation_metrics WHERE id NOT IN (keep)] *)
Definition delete_not_in (keep : list Z) (table : list HistoryRow) : list HistoryRow :=
  filter (fun r => row_id r ∈ keep) table.

Definition prune (env : Env) (db : D1) : D1 :=
  {| rows := delete_not_in (newest_ids env (rows db)) (rows db);
     next_id := next_id db;
     accepts_insert := accepts_insert db;
     accepts_delete := accepts_delete db |}.

Definition DB_delete (env : Env) : Js unit :=
  fun w =>
    if accepts_delete (DB w)
    then emit (EvDelete true) (set_DB (prune env (DB w)) w)
    else match emit (EvDelete false) w with
         | (_, w') => (Throw D1Error, w')
         end.

Definition limitStoredMetrics (env : Env) : Js unit :=
  try_catch (DB_delete env) (fun _ => ret tt).

Definition handleSimulate (env : Env) (request : Request) : Js Response :=
  match body request with
  | None =>
      jsonResponse env
        (ErrorPayload "Invalid request body" (Some "Body must be valid JSON")) 400
  | Some parsed =>
      b <- destructure parsed ;;
      let type_v := get_property b "type" in
      if negb (includes validTypes type_v)
      then jsonResponse env
             (ErrorPayload "Invalid type"
                (Some "Type must be one of: 'normal', 'spike', or 'ddos'")) 400
      else
        let type := string_value type_v in
        now <- Date_now env ;;
        r <- Math_random env ;;
        let simulationId :=
          "sim-" +:+ string_of_Z now +:+ "-" +:+ slice 2 8 (toString36 env r) in
        doResponse <- stub_fetch env
          {| method := "POST"; pathname := "/simulate";
             body := Some (JObj [("type", JStr type);
                                 ("simulationId", JStr simulationId)]) |} ;;
        if negb (ok doResponse)
        then jsonResponse env
               (ErrorPayload "Simulation failed"
                  (Some (message_or doResponse "Durable Object failed to simulate traffic")))
               (status doResponse)
        else
          match payload doResponse with
          | SimulatePayload _ m aiExplanation timestamp =>
              failed <- try_catch
                (DB_insert
                   {| simulation_id := simulationId;
                      timestamp := timestamp;
                      simulation_type := type;
                      cf_latency_ms := latency (cloudflare m);
                      cf_success_rate := successRate (cloudflare m);
                      cf_requests_handled := requestsHandled (cloudflare m);
                      cf_errors := errors (cloudflare m);
                      origin_latency_ms := latency (origin m);
                      origin_success_rate := successRate (origin m);
                      origin_requests_handled := requestsHandled (origin m);
                      origin_errors := errors (origin m);
                      ai_explanation := aiExplanation |} ;;;
                 (* ctx.waitUntil(limitStoredMetrics(env)) *)
                 limitStoredMetrics env ;;;
                 ret false)
                (fun _ => ret true) ;;
              if (failed : bool)
              then jsonResponse env
                     (ErrorPayload "Database error" (Some "Could not store metrics in D1")) 500
              else jsonResponse env
                     (ApiSimulatePayload simulationId type m aiExplanation timestamp) 200
          | _ =>
              (* [simulationPayload.metrics] is missing: the [try] block throws *)
              jsonResponse env
                (ErrorPayload "Database error" (Some "Could not store metrics in D1")) 500
          end
  end.

Definition handleGetStatus (env : Env) : Js Response :=
  response <- stub_fetch env
    {| method := "GET"; pathname := "/status"; body := None |} ;;
  if negb (ok response)
  then jsonResponse env
         (ErrorPayload "Status unavailable"
            (Some (message_or response "Durable Object unreachable")))
         (status response)
  else jsonResponse env (payload response) 200.

(** ** The numeric policy of the specification (section 4.1) *)








(** ** Vocabulary of the statements *)

(** The request that carries [simulate(scenario, id)] to the object. *)
Definition simulate_request (scenario simulationId : JsValue) : Request :=
  {| method := "POST"; pathname := "/simulate";
     body := Some (JObj [("type", scenario); ("simulationId", simulationId)]) |}.

(** The in-memory state and the stored state say the same. *)
Definition in_sync (w : World) : Prop :=
  contents (storage w) =
  Some {| stored_currentSimulation := currentSimulation (this w);
          stored_metrics := Some (metrics (this w)) |}.



Definition is_Random (e : Event) : bool :=
  match e with EvRandom _ => true | _ => false end.


(** The events a call appended to the log. *)
Definition appended (before after : World) : list Event :=
  drop (length (log before)) (log after).

(** The own properties of a simulation object, as [storage.put] and
    [JSON.stringify] see them. *)
Definition simulation_fields (s : Simulation) : list (string * JsValue) :=
  [("id", JStr (id s)); ("type", JStr (type s));
   ("startTime", JNum (inject_Z (startTime s))); ("isActive", JBool (isActive s))].

(** [{ ...s, isActive: flag }] *)
Definition with_isActive (flag : bool) (s : Simulation) : Simulation :=
  {| id := id s; type := type s; startTime := startTime s; isActive := flag |}.


(** The identifier [handleSimulate] builds from the next clock reading and
    the next random draw. *)
Definition generated_id (env : Env) (w : World) : string :=
  "sim-" +:+ string_of_Z (clock env (ticks w)) +:+ "-"
        +:+ slice 2 8 (toString36 env (random env (draws w))).

(** ** The history table *)

Definition row_timestamp (r : HistoryRow) : Z := timestamp (values r).

(** [a] comes no later than [b] under [ORDER BY timestamp DESC]. *)
Definition newer_or_equal (a b : HistoryRow) : Prop :=
  row_timestamp b <= row_timestamp a.

(** What D1 guarantees for [ORDER BY timestamp DESC]: the same rows, newest
    first; rows with equal timestamps may come in any order. *)
Definition orders_newest_first (env : Env) : Prop :=
  forall table : list HistoryRow,
    order_by_timestamp_desc env table ≡ₚ table
    /\ Sorted newer_or_equal (order_by_timestamp_desc env table).

(** The primary key is unique and below the next AUTOINCREMENT value. *)
Definition well_keyed (db : D1) : Prop :=
  NoDup (row_id <$> rows db)
  /\ forall r, r ∈ rows db -> row_id r < next_id db.

(** One recorded simulation: the INSERT, then the pruning DELETE. *)
Definition record_row (env : Env) (db : D1) (bound : RowValues) : D1 :=
  prune env (insert_row bound db).

Definition record_all (env : Env) (news : list RowValues) (db : D1) : D1 :=
  foldl (record_row env) db news.


Definition empty_table : D1 :=
  {| rows := []; next_id := 1; accepts_insert := true; accepts_delete := true |}.

(** The rows the sub-query of the pruning DELETE selects, and the others. *)
Definition newest (env : Env) (table : list HistoryRow) : list HistoryRow :=
  take retention_cap (order_by_timestamp_desc env table).

Definition oldest (env : Env) (table : list HistoryRow) : list HistoryRow :=
  drop retention_cap (order_by_timestamp_desc env table).



(** ** A concrete environment and concrete worlds *)

#[global] Instance newer_or_equal_dec (a b : HistoryRow) : Decision (newer_or_equal a b).
Proof. unfold newer_or_equal. apply Z_le_dec. Defined.

Definition sample_env (ai : AIBinding) : Env :=
  {| AI := ai;
     clock := fun i => 1704067200000 + 1000 * Z.of_nat i;
     random := fun _ => (1 # 2)%Q;
     toString36 := fun _ => "0.i";
     order_by_timestamp_desc := merge_sort newer_or_equal |}.

Definition fresh_world (write_ok : bool) : World :=
  {| this := {| currentSimulation := None; metrics := getInitialMetrics |};
     storage := {| contents := None; writable := write_ok |};
     DB := empty_table;
     ticks := 0; draws := 0; log := [] |}.

Definition sample_values (t : Z) : RowValues :=
  {| simulation_id := "sim"; timestamp := t; simulation_type := "normal";
     cf_latency_ms := 100; cf_success_rate := 100; cf_requests_handled := 10;
     cf_errors := 0; origin_latency_ms := 110; origin_success_rate := 100;
     origin_requests_handled := 10; origin_errors := 0;
     ai_explanation := None |}.

(** A capability that answers every prompt. *)
Definition answering_ai : AIBinding :=
  Runs (fun _ => Resolves (JObj [("response", JStr "Cloudflare absorbs the surge.")])).

(** The world after one accepted simulation on a fresh, writable world. *)
Definition after_first_simulation : World :=
  snd (handleSimulateRequest (sample_env answering_ai)
         (simulate_request (JStr "normal") (JStr "sim-1")) (fresh_world true)).

(** The same world once the durable storage rejects writes. *)
Definition storage_offline : World :=
  set_storage {| contents := contents (storage after_first_simulation);
                 writable := false |} after_first_simulation.

(** The same world when the clock is read for the [n]-th time. *)
Definition at_reading (n : nat) (w : World) : World :=
  {| this := this w; storage := storage w; DB := DB w;
     ticks := n; draws := draws w; log := log w |}.

Definition is_StubFetch (e : Event) : bool :=
  match e with EvStubFetch _ => true | _ => false end.

(** 510 simulations recorded one after the other, one per second. *)
Definition sample_510 : list RowValues :=
  (fun i => sample_values (1704067200000 + 1000 * Z.of_nat i)) <$> seq 1 510.

(** ** The rest of the Worker: recent history and routing *)

(** [Math.round(Number.parseFloat(value ?? 0) * 10) / 10] on the value of
    a [REAL NOT NULL] column: a number, which [parseFloat] gives back. *)
Definition toOneDecimal (value : Q) : Q :=
  inject_Z (Math_round (value * 10)) / 10.

(** [{ ...row, cf_success_rate: ..., origin_success_rate: ... }] *)
Definition format_row (row : HistoryRow) : HistoryRow :=
  {| row_id := row_id row;
     values :=
       {| simulation_id := simulation_id (values row);
          timestamp := timestamp (values row);
          simulation_type := simulation_type (values row);
          cf_latency_ms := cf_latency_ms (values row);
          cf_success_rate := toOneDecimal (cf_success_rate (values row));
          cf_requests_handled := cf_requests_handled (values row);
          cf_errors := cf_errors (values row);
          origin_latency_ms := origin_latency_ms (values row);
          origin_success_rate := toOneDecimal (origin_success_rate (values row));
          origin_requests_handled := origin_requests_handled (values row);
          origin_errors := origin_errors (values row);
          ai_explanation := ai_explanation (values row) |} |}.

Definition recent_limit : nat := 5.

(** [SELECT ... FROM simulation_metrics ORDER BY timestamp DESC LIMIT 5];
    [answers] tells whether D1 answers the query.  A read is not logged. *)
Definition DB_select_recent (env : Env) (answers : bool) : Js (list HistoryRow) :=
  fun w =>
    if answers
    then (Return (take recent_limit (order_by_timestamp_desc env (rows (DB w)))), w)
    else (Throw D1Error, w).

(** What the Worker sends back: no body (the preflight answer), one of the
    JSON payloads of the handlers, or [{ metrics, timestamp }]. *)
Inductive ApiBody : Type :=
| NoBody
| Json (data : Payload)
| MetricsBody (metrics : list HistoryRow) (timestamp : Z).

Record ApiResponse : Type := {
  api_status : Z;
  api_body : ApiBody
}.

Definition as_api (r : Response) : ApiResponse :=
  {| api_status := status r; api_body := Json (payload r) |}.

(** [jsonResponse({ metrics: formatted })] carries no timestamp and has
    status 200, so it is stamped with [Date.now()]. *)
Definition handleGetMetrics (env : Env) (answers : bool) : Js ApiResponse :=
  try_catch
    (results <- DB_select_recent env answers ;;
     let formatted := format_row <$> results in
     now <- Date_now env ;;
     ret {| api_status := 200; api_body := MetricsBody formatted now |})
    (fun _ =>
       r <- jsonResponse env
              (ErrorPayload "Database error" (Some "Unable to retrieve metrics")) 500 ;;
       ret (as_api r)).

(** The [fetch] of the Worker.  The handlers are awaited inside the [try],
    so what they throw reaches the [catch]. *)
Definition Worker_fetch (env : Env) (request : Request) (answers : bool) : Js ApiResponse :=
  if String.eqb (method request) "OPTIONS"
  then ret {| api_status := 204; api_body := NoBody |}
  else
    try_catch
      (if String.eqb (pathname request) "/api/simulate"
       then
         if negb (String.eqb (method request) "POST")
         then r <- jsonResponse env
                     (ErrorPayload "Method not allowed"
                        (Some "Use POST for /api/simulate")) 405 ;;
              ret (as_api r)
         else r <- handleSimulate env request ;; ret (as_api r)
       else if String.eqb (pathname request) "/api/metrics"
       then handleGetMetrics env answers
       else if String.eqb (pathname request) "/api/status"
       then r <- handleGetStatus env ;; ret (as_api r)
       else r <- jsonResponse env
                   (ErrorPayload "Not found" (Some "Endpoint does not exist")) 404 ;;
            ret (as_api r))
      (fun _ =>
         r <- jsonResponse env
                (ErrorPayload "Internal Server Error"
                   (Some "Unexpected failure occurred")) 500 ;;
         ret (as_api r)).

(** The values [handleSimulate] binds to its INSERT. *)
Definition bound_values (simulationId type : string) (m : Metrics)
    (aiExplanation : option string) (timestamp : Z) : RowValues :=
  {| simulation_id := simulationId;
     timestamp := timestamp;
     simulation_type := type;
     cf_latency_ms := latency (cloudflare m);
     cf_success_rate := successRate (cloudflare m);
     cf_requests_handled := requestsHandled (cloudflare m);
     cf_errors := errors (cloudflare m);
     origin_latency_ms := latency (origin m);
     origin_success_rate := successRate (origin m);
     origin_requests_handled := requestsHandled (origin m);
     origin_errors := errors (origin m);
     ai_explanation := aiExplanation |}.

(** Every row carries one of the three tags, as the CHECK constraint of
    the table asks, an identifier made by the Worker and an explanation. *)
Definition row_as_recorded (r : HistoryRow) : Prop :=
  In (simulation_type (values r)) validTypes
  /\ startsWith (simulation_id (values r)) "sim-" = true
  /\ exists s, ai_explanation (values r) = Some s /\ s <> "".

Definition is_D1_write (e : Event) : bool :=
  match e with EvInsert _ _ | EvDelete _ => true | _ => false end.

(** A world whose D1 rejects the INSERT, and one whose D1 rejects the
    pruning DELETE. *)
Definition insert_rejected : World :=
  set_DB {| rows := []; next_id := 1;
            accepts_insert := false; accepts_delete := true |} (fresh_world true).

Definition delete_rejected : World :=
  set_DB {| rows := []; next_id := 1;
            accepts_insert := true; accepts_delete := false |} (fresh_world true).

Definition api_simulate (type : string) : Request :=
  {| method := "POST"; pathname := "/api/simulate";
     body := Some (JObj [("type", JStr type)]) |}.

(** A fresh world whose object already holds an earlier simulation. *)
Definition busy_world : World :=
  set_this {| currentSimulation :=
                Some {| id := "sim-0"; type := "spike";
                        startTime := 1704067100000; isActive := true |};
              metrics := getInitialMetrics |} (fresh_world true).

(** * Properties *)

(** ** Rounding *)

Lemma Qfloor_half (b : Z) : Qfloor (inject_Z b + (1 # 2)) = b.
Proof.
  unfold Qfloor, Qplus, inject_Z; simpl.
  rewrite Z.mul_1_r. replace (b * 2 + 1) with (1 + b * 2) by lia.
  rewrite Z.div_add by lia. reflexivity.
Qed.








(** ** C4: the generated metrics stay inside the table *)

Arguments Math_round : simpl never.
Arguments Math_floor : simpl never.
Arguments roundSuccess : simpl never.
Arguments roundLatency : simpl never.

Lemma valid_type_cases (type : string) :
  In type validTypes -> type = "normal" \/ type = "spike" \/ type = "ddos".
Proof. simpl. intuition auto. Qed.





(** ** Worlds and logs *)

Lemma logged_nil (w : World) : logged [] w = w.
Proof. destruct w; unfold logged; simpl. now rewrite app_nil_r. Qed.

Lemma logged_logged (es es' : list Event) (w : World) :
  logged es' (logged es w) = logged (es ++ es') w.
Proof. unfold logged; simpl. now rewrite app_assoc. Qed.

Lemma appended_logged (es : list Event) (w w' : World) :
  log w' = log w ++ es -> appended w w' = es.
Proof. unfold appended. intros ->. apply drop_app_length. Qed.

Lemma validTypes_includes (type : string) :
  In type validTypes <-> includes validTypes (JStr type) = true.
Proof.
  unfold includes, validTypes. rewrite existsb_exists. split.
  - intros H. exists type. split; [exact H | apply String.eqb_refl].
  - intros (x & Hx & E). apply String.eqb_eq in E. now subst.
Qed.

Lemma fallback_valid (type : string) :
  In type validTypes -> exists s, fallback type = Some s /\ s <> "".
Proof.
  intros H. destruct (valid_type_cases type H) as [-> | [-> | ->]];
    eexists; (split; [reflexivity | discriminate]).
Qed.

(** ** The explanation provider *)



Arguments build_prompt : simpl never.
Arguments fallback : simpl never.
Arguments trimmed : simpl never.
Arguments responseText : simpl never.

(** What one call of the provider does, for a valid tag: it returns a
    non-empty string and calls the capability at most once. *)
Lemma getAIExplanation_returns (env : Env) (type : string) (m : Metrics) (w : World) :
  In type validTypes ->
  exists (s : string) (calls : list Event),
    getAIExplanation env type m w = (Return (Some s), logged calls w)
    /\ s <> ""
    /\ (calls = [] \/ calls = [EvAIRun (build_prompt type m)]).
Proof.
  intros Hv. destruct (fallback_valid type Hv) as (f & Hf & Hne).
  unfold getAIExplanation.
  destruct (AI env) as [| | run].
  - exists f, []. rewrite logged_nil, Hf. unfold ret. auto.
  - exists f, []. rewrite logged_nil, Hf. unfold ret. auto.
  - unfold try_catch, bind, AI_run, emit, bind, ret, throw.
    destruct (run (build_prompt type m)) as [aiResult | |].
    + destruct (String.eqb (trimmed (responseText aiResult)) "") eqn:E.
      * exists f, [EvAIRun (build_prompt type m)]. rewrite Hf. auto.
      * apply String.eqb_neq in E.
        exists (trimmed (responseText aiResult)), [EvAIRun (build_prompt type m)].
        auto.
    + exists f, [EvAIRun (build_prompt type m)]. rewrite Hf. auto.
    + exists f, [EvAIRun (build_prompt type m)]. rewrite Hf. auto.
Qed.




(** ** The simulate handler *)

Lemma generateMetrics_returns (env : Env) (type : string) (w : World) :
  In type validTypes ->
  exists (m : Metrics) (rs : list Event),
    generateMetrics env type w =
      (Return m,
       {| this := this w; storage := storage w; DB := DB w; ticks := ticks w;
          draws := (draws w + length rs)%nat; log := log w ++ rs |})
    /\ forallb is_Random rs = true.
Proof.
  intros Hv. destruct (valid_type_cases type Hv) as [-> | [-> | ->]].
  - eexists.
    exists [EvRandom (random env (draws w)); EvRandom (random env (S (draws w)))].
    split; [| reflexivity].
    unfold generateMetrics; simpl.
    unfold generate_normal, bind, Math_random, ret; simpl.
    f_equal. f_equal; [lia | now rewrite <- !app_assoc].
  - eexists.
    exists [EvRandom (random env (draws w)); EvRandom (random env (S (draws w)));
            EvRandom (random env (S (S (draws w))));
            EvRandom (random env (S (S (S (draws w)))));
            EvRandom (random env (S (S (S (S (draws w))))))].
    split; [| reflexivity].
    unfold generateMetrics; simpl.
    unfold generate_spike, bind, Math_random, ret; simpl.
    f_equal. f_equal; [lia | now rewrite <- !app_assoc].
  - eexists.
    exists [EvRandom (random env (draws w)); EvRandom (random env (S (draws w)));
            EvRandom (random env (S (S (draws w))));
            EvRandom (random env (S (S (S (draws w)))));
            EvRandom (random env (S (S (S (S (draws w))))))].
    split; [| reflexivity].
    unfold generateMetrics; simpl.
    unfold generate_ddos, bind, Math_random, ret; simpl.
    f_equal. f_equal; [lia | now rewrite <- !app_assoc].
Qed.

Arguments generateMetrics : simpl never.
Arguments getAIExplanation : simpl never.
Arguments includes : simpl never.

Lemma bind_return {A B : Type} (m : Js A) (k : A -> Js B) (w w' : World) (a : A) :
  m w = (Return a, w') -> bind m k w = k a w'.
Proof. intros H. unfold bind. now rewrite H. Qed.

Lemma bind_throw {A B : Type} (m : Js A) (k : A -> Js B) (w w' : World) (e : Error) :
  m w = (Throw e, w') -> bind m k w = (Throw e, w').
Proof. intros H. unfold bind. now rewrite H. Qed.

(** The whole effect of one accepted call, in the two cases of the durable
    write. *)
Lemma handleSimulateRequest_accepted
    (env : Env) (type simulationId : string) (w : World) :
  In type validTypes ->
  let t := clock env (ticks w) in
  let simulation := {| id := simulationId; type := type;
                       startTime := t; isActive := true |} in
  exists (m : Metrics) (rs : list Event) (s : string) (calls : list Event),
    let value := {| stored_currentSimulation := Some simulation;
                    stored_metrics := Some m |} in
    forallb is_Random rs = true
    /\ s <> ""
    /\ (calls = [] \/ calls = [EvAIRun (build_prompt type m)])
    /\ handleSimulateRequest env (simulate_request (JStr type) (JStr simulationId)) w =
       if writable (storage w)
       then (Return {| status := 200;
                       payload := SimulatePayload simulation m (Some s) t |},
             {| this := {| currentSimulation := Some simulation; metrics := m |};
                storage := {| contents := Some value; writable := true |};
                DB := DB w; ticks := S (ticks w);
                draws := (draws w + length rs)%nat;
                log := log w ++ [EvDateNow t] ++ rs
                             ++ [EvStoragePut value true] ++ calls |})
       else (Throw StorageError,
             {| this := {| currentSimulation := Some simulation; metrics := m |};
                storage := storage w;
                DB := DB w; ticks := S (ticks w);
                draws := (draws w + length rs)%nat;
                log := log w ++ [EvDateNow t] ++ rs
                             ++ [EvStoragePut value false] |}).
Proof.
  intros Hv t simulation.
  apply validTypes_includes in Hv as Hinc.
  set (w1 := snd (Date_now env w)).
  destruct (generateMetrics_returns env type w1 Hv) as (m & rs & Hgen & Hrs).
  set (w2 := {| this := this w1; storage := storage w1; DB := DB w1;
                ticks := ticks w1; draws := (draws w1 + length rs)%nat;
                log := log w1 ++ rs |}) in Hgen.
  set (value := {| stored_currentSimulation := Some simulation;
                   stored_metrics := Some m |}).
  set (w3 := {| this := {| currentSimulation := Some simulation; metrics := m |};
                storage := {| contents := Some value; writable := true |};
                DB := DB w; ticks := S (ticks w);
                draws := (draws w + length rs)%nat;
                log := (log w ++ [EvDateNow t]) ++ rs ++ [EvStoragePut value true] |}).
  destruct (getAIExplanation_returns env type m w3 Hv) as (s & calls & Hai & Hs & Hcalls).
  exists m, rs, s, calls. cbv zeta.
  split; [exact Hrs |]. split; [exact Hs |]. split; [exact Hcalls |].
  unfold handleSimulateRequest, simulate_request.
  cbn [body]. unfold bind at 1.
  cbn [destructure ret get_property own_property String.eqb Ascii.eqb Bool.eqb].
  rewrite Hinc. cbn [negb orb is_string string_value].
  rewrite (bind_return _ _ w w1 t) by reflexivity.
  rewrite (bind_return _ _ w1 w2 m) by exact Hgen.
  erewrite bind_return by reflexivity.
  erewrite bind_return by reflexivity.
  unfold assign_metrics, assign_currentSimulation, set_this. cbn.
  destruct (writable (storage w)) eqn:Hw.
  - erewrite (bind_return persistState _ _ w3).
    + erewrite bind_return by exact Hai.
      unfold ret, w3, logged; cbn. do 2 f_equal. now rewrite <- !app_assoc.
    + unfold persistState, storage_put; cbn. rewrite Hw.
      unfold emit, logged, set_storage, w3; cbn. do 2 f_equal.
      now rewrite <- !app_assoc.
  - erewrite bind_throw; [reflexivity |].
    unfold persistState, storage_put; cbn. rewrite Hw.
    unfold emit, logged; cbn. do 2 f_equal. now rewrite <- !app_assoc.
Qed.

(** ** C1: a failed durable write *)




(** ** C2: the order of the steps of an accepted call *)





(** ** C3: rejected requests *)

(** C3, as stated, fails: the empty string is not a non-empty identifier,
    yet [simulate("normal", "")] is accepted and changes the state. *)
Lemma C3_counterexample :
  let w := fresh_world true in
  let result := handleSimulateRequest (sample_env NoAI)
                  (simulate_request (JStr "normal") (JStr "")) w in
  (exists r, fst result = Return r /\ status r = 200)
  /\ this (snd result) <> this w.
Proof.
  cbv zeta. split.
  - eexists. split; [vm_compute; reflexivity | reflexivity].
  - intros H. vm_compute in H. discriminate H.
Qed.

(** C3, amended. When the scenario is not one of the three tags or the
    identifier is not a string, the call answers 400 "Invalid type" and
    the world is exactly what it was: no assignment, no write, no event. *)
Theorem C3_rejected_before_any_mutation
    (env : Env) (scenario simulationId : JsValue) (w : World) :
  includes validTypes scenario = false \/ is_string simulationId = false ->
  handleSimulateRequest env (simulate_request scenario simulationId) w
    = (Return {| status := 400;
                 payload := ErrorPayload "Invalid type"
                   (Some "Type must be 'normal', 'spike', or 'ddos' with a simulationId string") |},
       w).
Proof.
  intros H. unfold handleSimulateRequest, simulate_request.
  cbn [body]. unfold bind at 1.
  cbn [destructure ret get_property own_property String.eqb Ascii.eqb Bool.eqb].
  destruct H as [-> | ->]; [reflexivity |].
  rewrite orb_true_r. reflexivity.
Qed.

Lemma C3_witness :
  handleSimulateRequest (sample_env NoAI)
    (simulate_request (JStr "flood") (JStr "sim-1")) after_first_simulation
  = (Return {| status := 400;
               payload := ErrorPayload "Invalid type"
                 (Some "Type must be 'normal', 'spike', or 'ddos' with a simulationId string") |},
     after_first_simulation).
Proof.
  apply (C3_rejected_before_any_mutation (sample_env NoAI)
           (JStr "flood") (JStr "sim-1") after_first_simulation).
  left. reflexivity.
Defined.

(** ** C7: the [isActive] flag *)

Lemma or_zero_id (x : Z) : or_zero x = x.
Proof. unfold or_zero. destruct (Z.eqb_spec x 0); congruence. Qed.

Lemma handleStatusRequest_returns (env : Env) (w : World) :
  let now := clock env (ticks w) in
  handleStatusRequest env w =
    (Return {| status := 200;
               payload := StatusPayload
                 (option_map (fun s => with_isActive (now - startTime s <? 30000) s)
                             (currentSimulation (this w)))
                 (metrics (this w)) now |},
     {| this := this w; storage := storage w; DB := DB w;
        ticks := S (ticks w); draws := draws w;
        log := log w ++ [EvDateNow now] |}).
Proof.
  unfold handleStatusRequest, bind, Date_now. cbn.
  destruct (currentSimulation (this w)) as [s |]; cbn; [| reflexivity].
  now rewrite or_zero_id.
Qed.

(** C7, as stated, fails: the record built by [simulate] has a field
    [isActive], set to [true]; it is written to the durable storage with
    the record and stays [true] there, also when a status read forty
    seconds after the start reports [false]. *)
Lemma C7_counterexample :
  let env := sample_env answering_ai in
  exists (stored : StoredState) (record shown : Simulation) (m : Metrics) (now : Z),
    contents (storage after_first_simulation) = Some stored
    /\ stored_currentSimulation stored = Some record
    /\ In ("isActive", JBool true) (simulation_fields record)
    /\ fst (handleStatusRequest env (at_reading 40 after_first_simulation))
       = Return {| status := 200; payload := StatusPayload (Some shown) m now |}
    /\ now - startTime record = 40000
    /\ isActive shown = false.
Proof.
  cbv zeta. do 5 eexists.
  split; [vm_compute; reflexivity |].
  split; [reflexivity |].
  split; [simpl; auto |].
  split; [vm_compute; reflexivity |].
  split; reflexivity.
Qed.

(** C7, amended. A status read reports the current record with [isActive]
    recomputed as [now - startTime < 30000] and changes neither the
    in-memory state nor the stored state.  The record itself carries an
    [isActive] field, which an accepted [simulate] sets to [true], keeps
    in memory and writes to the durable storage with the record. *)
Theorem C7_isActive_recomputed_over_a_stored_flag (env : Env) (w : World) :
  (let now := clock env (ticks w) in
   exists w',
     handleStatusRequest env w =
       (Return {| status := 200;
                  payload := StatusPayload
                    (option_map (fun s => with_isActive (now - startTime s <? 30000) s)
                                (currentSimulation (this w)))
                    (metrics (this w)) now |}, w')
     /\ this w' = this w
     /\ storage w' = storage w)
  /\ (forall type simulationId : string,
        In type validTypes ->
        let record := {| id := simulationId; type := type;
                         startTime := clock env (ticks w); isActive := true |} in
        exists w',
          snd (handleSimulateRequest env
                 (simulate_request (JStr type) (JStr simulationId)) w) = w'
          /\ currentSimulation (this w') = Some record
          /\ In ("isActive", JBool true) (simulation_fields record)
          /\ (writable (storage w) = true ->
              exists stored, contents (storage w') = Some stored
                             /\ stored_currentSimulation stored = Some record)).
Proof.
  split.
  - cbv zeta. eexists. split; [apply handleStatusRequest_returns |].
    split; reflexivity.
  - intros type simulationId Hv record.
    destruct (handleSimulateRequest_accepted env type simulationId w Hv)
      as (m & rs & s & calls & _ & _ & _ & Hrun).
    rewrite Hrun. eexists. split; [reflexivity |].
    destruct (writable (storage w)); cbn.
    + split; [reflexivity |]. split; [auto |]. intros _. eexists. split; reflexivity.
    + split; [reflexivity |]. split; [auto |]. intros H. discriminate H.
Qed.

Lemma C7_witness :
  In "normal" validTypes
  /\ exists w',
       snd (handleSimulateRequest (sample_env NoAI)
              (simulate_request (JStr "normal") (JStr "sim-1")) (fresh_world true)) = w'
       /\ currentSimulation (this w')
          = Some {| id := "sim-1"; type := "normal";
                    startTime := 1704067200000; isActive := true |}.
Proof.
  assert (Hv : In "normal" validTypes) by (simpl; auto).
  split; [exact Hv |].
  destruct (proj2 (C7_isActive_recomputed_over_a_stored_flag
                     (sample_env NoAI) (fresh_world true)) "normal" "sim-1" Hv)
    as (w' & Hrun & Hcur & _).
  exists w'. split; [exact Hrun | exact Hcur].
Defined.

(** ** C8: restoring from the stored state *)

Lemma restart_in_sync (w : World) : in_sync w -> restart w = w.
Proof.
  unfold in_sync, restart, constructor, set_this. intros ->. cbn.
  destruct w as [[cur m] st db k d l]; reflexivity.
Qed.

(** C8. Writing the state to the durable storage and building the object
    again from what was written gives back the same in-memory state, and
    a status read at the same clock reading answers the same as before the
    restart.  When nothing is stored, the object starts with no current
    simulation and the initial metrics, and the status read answers 200. *)
Theorem C8_restart_reproduces_status (env : Env) (w : World) :
  (writable (storage w) = true ->
   exists w1,
     persistState w = (Return tt, w1)
     /\ contents (storage w1)
        = Some {| stored_currentSimulation := currentSimulation (this w);
                  stored_metrics := Some (metrics (this w)) |}
     /\ this (restart w1) = this w
     /\ fst (handleStatusRequest env (restart w1)) = fst (handleStatusRequest env w))
  /\ (contents (storage w) = None ->
      this (restart w) = {| currentSimulation := None; metrics := getInitialMetrics |}
      /\ fst (handleStatusRequest env (restart w))
         = Return {| status := 200;
                     payload := StatusPayload None getInitialMetrics
                                  (clock env (ticks w)) |}).
Proof.
  split.
  - intros Hw. unfold persistState, storage_put. rewrite Hw.
    eexists. split; [reflexivity |]. split; [reflexivity |].
    split.
    + unfold restart, constructor; cbn. now destruct (this w).
    + rewrite !handleStatusRequest_returns. cbn. now destruct (this w).
  - intros Hnone. unfold restart, constructor. rewrite Hnone.
    split; [reflexivity |].
    rewrite handleStatusRequest_returns. reflexivity.
Qed.

Lemma C8_witness :
  writable (storage after_first_simulation) = true
  /\ exists w1,
       persistState after_first_simulation = (Return tt, w1)
       /\ fst (handleStatusRequest (sample_env NoAI) (restart w1))
          = fst (handleStatusRequest (sample_env NoAI) after_first_simulation).
Proof.
  split; [reflexivity |].
  destruct (proj1 (C8_restart_reproduces_status (sample_env NoAI)
                     after_first_simulation) eq_refl)
    as (w1 & Hput & _ & _ & Hstatus).
  exists w1. split; [exact Hput | exact Hstatus].
Defined.

(** ** C10: the identifier comes from the Worker *)

Arguments string_of_Z : simpl never.
Arguments slice : simpl never.
Arguments handleSimulateRequest : simpl never.

Lemma generated_id_shape (env : Env) (w : World) :
  generated_id env w <> "" /\ startsWith (generated_id env w) "sim-" = true.
Proof.
  unfold generated_id. cbv [String.append]. fold String.append.
  split; [discriminate | reflexivity].
Qed.

Lemma randoms_are_not_forwards (rs : list Event) :
  forallb is_Random rs = true -> existsb is_StubFetch rs = false.
Proof.
  induction rs as [| e rs IH]; [reflexivity |]. simpl.
  intros H. apply andb_true_iff in H as [He Hrs]. rewrite (IH Hrs).
  destruct e; simpl in *; congruence.
Qed.

Lemma get_property_object (v : JsValue) (k : string) (s : string) :
  get_property v k = JStr s -> destructure v = ret v.
Proof. destruct v; simpl; try discriminate; reflexivity. Qed.

Lemma DO_fetch_simulate (env : Env) (scenario simulationId : JsValue) :
  DO_fetch env (simulate_request scenario simulationId)
  = handleSimulateRequest env (simulate_request scenario simulationId).
Proof. reflexivity. Qed.

Ltac no_forward Hrs Hcalls :=
  repeat (first [rewrite existsb_app | progress cbn [existsb app is_StubFetch orb]]);
  rewrite (randoms_are_not_forwards _ Hrs);
  first [ reflexivity | destruct Hcalls as [-> | ->]; reflexivity ].

(** C10. Whatever the body of a create-simulation request carries beside
    a valid [type], the Worker forwards to the object exactly one request,
    whose [simulationId] is the string "sim-", the clock reading, "-", and
    the slice of the base-36 rendering of a random draw; that identifier
    is a non-empty string, and it is the identifier of the record the
    object then holds. *)
Theorem C10_identifier_generated_by_the_worker
    (env : Env) (request : Request) (parsed : JsValue) (type : string) (w : World) :
  body request = Some parsed ->
  get_property parsed "type" = JStr type ->
  In type validTypes ->
  let w' := snd (handleSimulate env request w) in
  exists rest : list Event,
    appended w w' =
      [EvDateNow (clock env (ticks w)); EvRandom (random env (draws w));
       EvStubFetch (simulate_request (JStr type) (JStr (generated_id env w)))] ++ rest
    /\ existsb is_StubFetch rest = false
    /\ generated_id env w <> ""
    /\ startsWith (generated_id env w) "sim-" = true
    /\ exists record,
         currentSimulation (this w') = Some record
         /\ id record = generated_id env w.
Proof.
  intros Hb Ht Hv.
  destruct (generated_id_shape env w) as [Hne Hpre].
  unfold handleSimulate. rewrite Hb.
  rewrite (bind_return _ _ w w parsed) by (now rewrite (get_property_object _ _ _ Ht)).
  rewrite Ht. apply validTypes_includes in Hv as Hinc. rewrite Hinc.
  cbn [negb string_value].
  set (w2 := {| this := this w; storage := storage w; DB := DB w;
                ticks := S (ticks w); draws := S (draws w);
                log := (log w ++ [EvDateNow (clock env (ticks w))])
                       ++ [EvRandom (random env (draws w))] |}).
  erewrite bind_return by reflexivity.
  rewrite (bind_return _ _ _ w2 (random env (draws w))) by reflexivity.
  fold (generated_id env w).
  set (gid := generated_id env w) in *.
  fold (simulate_request (JStr type) (JStr gid)).
  set (forwarded := simulate_request (JStr type) (JStr gid)).
  set (w3 := logged [EvStubFetch forwarded] w2).
  destruct (handleSimulateRequest_accepted env type gid w3 Hv)
    as (m & rs & s & calls & Hrs & _ & Hcalls & Hrun).
  fold forwarded in Hrun.
  assert (Hstub : stub_fetch env forwarded w2 = handleSimulateRequest env forwarded w3)
    by reflexivity.
  rewrite Hrun in Hstub. unfold w3, w2, logged in Hstub.
  cbn [storage ticks DB draws log this] in Hstub.
  destruct (writable (storage w)) eqn:Hw.
  - erewrite bind_return by exact Hstub.
    cbn [ok status payload negb andb Z.leb Z.compare Pos.compare Pos.compare_cont].
    unfold try_catch, bind, DB_insert, limitStoredMetrics, try_catch, DB_delete,
      emit, ret, jsonResponse, logged, set_DB.
    cbn [DB this storage ticks draws log].
    destruct (accepts_insert (DB w));
      [cbn [DB insert_row accepts_delete]; destruct (accepts_delete (DB w)) |];
      cbn; eexists.
    all: split;
      [ apply appended_logged; rewrite <- !app_assoc; reflexivity |].
    all: split; [no_forward Hrs Hcalls |].
    all: split; [exact Hne |]; split; [exact Hpre |].
    all: eexists; split; reflexivity.
  - erewrite bind_throw by exact Hstub. cbn.
    exists ([EvDateNow (clock env (S (ticks w)))] ++ rs
            ++ [EvStoragePut {| stored_currentSimulation :=
                                  Some {| id := gid; type := type;
                                          startTime := clock env (S (ticks w));
                                          isActive := true |};
                                stored_metrics := Some m |} false] ++ [] ++ []).
    split; [apply appended_logged; rewrite <- !app_assoc; reflexivity |].
    split; [no_forward Hrs Hcalls |].
    split; [exact Hne |]. split; [exact Hpre |].
    eexists; split; reflexivity.
Qed.

(** ** C9: the retention cap of the history table *)

Lemma filter_all {A : Type} (P : A -> Prop) `{forall x, Decision (P x)} (l : list A) :
  Forall P l -> filter P l = l.
Proof.
  induction 1 as [| x l Hx Hl IH]; [reflexivity |].
  rewrite filter_cons_True by exact Hx. now rewrite IH.
Qed.

Lemma filter_none {A : Type} (P : A -> Prop) `{forall x, Decision (P x)} (l : list A) :
  Forall (fun x => ~ P x) l -> filter P l = [].
Proof.
  induction 1 as [| x l Hx Hl IH]; [reflexivity |].
  now rewrite filter_cons_False by exact Hx.
Qed.

#[local] Instance newer_or_equal_transitive : Transitive newer_or_equal.
Proof. unfold newer_or_equal. intros a b c Hab Hbc. lia. Qed.

#[local] Instance newer_or_equal_total : Total newer_or_equal.
Proof. unfold newer_or_equal. intros a b. lia. Qed.

Lemma merge_sort_orders_newest_first (ai : AIBinding) :
  orders_newest_first (sample_env ai).
Proof.
  intros table. split.
  - apply merge_sort_Permutation.
  - apply Sorted_merge_sort, _.
Qed.

Lemma insert_row_well_keyed (bound : RowValues) (db : D1) :
  well_keyed db -> well_keyed (insert_row bound db).
Proof.
  intros [Hnd Hlt]. split; cbn.
  - rewrite fmap_app. cbn. apply NoDup_app. split; [exact Hnd |].
    split; [| apply NoDup_singleton].
    intros x Hx Hx'. apply list_elem_of_singleton in Hx'. subst x.
    apply list_elem_of_fmap in Hx as (r & Hr & Hin).
    specialize (Hlt r Hin). lia.
  - intros r Hr. apply elem_of_app in Hr as [Hr | Hr].
    + specialize (Hlt r Hr). lia.
    + apply list_elem_of_singleton in Hr. subst r. cbn. lia.
Qed.


Section Retention.

Variable env : Env.
Hypothesis Horder : orders_newest_first env.

Lemma newest_oldest (table : list HistoryRow) :
  newest env table ++ oldest env table ≡ₚ table.
Proof. unfold newest, oldest. rewrite take_drop. apply Horder. Qed.


(** The DELETE keeps exactly the rows the sub-query selected. *)
Lemma delete_keeps_newest (table : list HistoryRow) :
  NoDup (row_id <$> table) ->
  delete_not_in (newest_ids env table) table ≡ₚ newest env table.
Proof.
  intros Hnd. unfold delete_not_in, newest_ids. fold (newest env table).
  pose proof (newest_oldest table) as Hperm.
  set (selected := fun r : HistoryRow => row_id r ∈ row_id <$> newest env table).
  transitivity (filter selected (newest env table ++ oldest env table)).
  { apply filter_Permutation. now symmetry. }
  rewrite filter_app.
  assert (Hnd' : NoDup (row_id <$> (newest env table ++ oldest env table)))
    by now rewrite Hperm.
  rewrite fmap_app in Hnd'. apply NoDup_app in Hnd' as (_ & Hdisj & _).
  rewrite filter_all, filter_none.
  - now rewrite app_nil_r.
  - apply Forall_forall. intros e He Hid.
    apply (Hdisj (row_id e)); [exact Hid | now apply list_elem_of_fmap_2].
  - apply Forall_forall. intros k Hk. now apply list_elem_of_fmap_2.
Qed.

Lemma prune_well_keyed (db : D1) : well_keyed db -> well_keyed (prune env db).
Proof.
  intros [Hnd Hlt]. split; cbn.
  - eapply sublist_NoDup; [exact Hnd |].
    apply fmap_sublist, sublist_filter.
  - intros r Hr. apply list_elem_of_filter in Hr as [_ Hr]. now apply Hlt.
Qed.

Lemma length_newest (table : list HistoryRow) :
  length (newest env table) = Nat.min retention_cap (length table).
Proof.
  unfold newest. rewrite length_take.
  now rewrite (Permutation_length (proj1 (Horder table))).
Qed.





End Retention.


(** With one simulation per second, the 500 rows left are the last 500
    inserted: the keys 11 to 510. *)
Example record_510_keeps_the_last_500 :
  row_id <$> rows (record_all (sample_env NoAI) sample_510 empty_table)
  = Z.of_nat <$> seq 11 500.
Proof. vm_compute. reflexivity. Qed.

Lemma C10_witness :
  exists rest : list Event,
    appended (fresh_world true)
      (snd (handleSimulate (sample_env NoAI)
              (simulate_request (JStr "spike") (JStr "chosen-by-the-caller"))
              (fresh_world true)))
    = [EvDateNow 1704067200000; EvRandom (1 # 2);
       EvStubFetch (simulate_request (JStr "spike") (JStr "sim-1704067200000-i"))]
      ++ rest.
Proof.
  destruct (C10_identifier_generated_by_the_worker (sample_env NoAI)
              (simulate_request (JStr "spike") (JStr "chosen-by-the-caller"))
              (JObj [("type", JStr "spike");
                     ("simulationId", JStr "chosen-by-the-caller")])
              "spike" (fresh_world true) eq_refl eq_refl
              ltac:(simpl; auto))
    as (rest & Happ & _).
  exists rest. exact Happ.
Defined.

(** * Further properties of the Worker and of the object *)

(** ** One create-simulation request, end to end *)

Lemma includes_string (l : list string) (v : JsValue) :
  includes l v = true -> exists s, v = JStr s /\ In s l.
Proof.
  unfold includes. destruct v; try discriminate.
  rewrite existsb_exists. intros (x & Hx & E).
  apply String.eqb_eq in E. subst. eauto.
Qed.

(** The whole effect of [handleSimulate] on a request with a valid [type],
    by the answers of the durable storage and of D1. *)
Lemma handleSimulate_accepted
    (env : Env) (request : Request) (parsed : JsValue) (type : string) (w : World) :
  body request = Some parsed ->
  get_property parsed "type" = JStr type ->
  In type validTypes ->
  let gid := generated_id env w in
  let t := clock env (S (ticks w)) in
  let simulation := {| id := gid; type := type; startTime := t; isActive := true |} in
  exists (m : Metrics) (rs : list Event) (s : string) (calls : list Event)
         (c : Completion Response) (w' : World),
    let value := {| stored_currentSimulation := Some simulation;
                    stored_metrics := Some m |} in
    let bound := bound_values gid type m (Some s) t in
    handleSimulate env request w = (c, w')
    /\ forallb is_Random rs = true
    /\ s <> ""
    /\ (calls = [] \/ calls = [EvAIRun (build_prompt type m)])
    /\ c = (if writable (storage w)
            then if accepts_insert (DB w)
                 then Return {| status := 200;
                                payload := ApiSimulatePayload gid type m (Some s) t |}
                 else Return {| status := 500;
                                payload := ErrorPayload "Database error"
                                             (Some "Could not store metrics in D1") |}
            else Throw StorageError)
    /\ this w' = {| currentSimulation := Some simulation; metrics := m |}
    /\ storage w' = (if writable (storage w)
                     then {| contents := Some value; writable := true |}
                     else storage w)
    /\ DB w' = (if writable (storage w) && accepts_insert (DB w)
                then if accepts_delete (DB w)
                     then prune env (insert_row bound (DB w))
                     else insert_row bound (DB w)
                else DB w)
    /\ appended w w' =
         [EvDateNow (clock env (ticks w)); EvRandom (random env (draws w));
          EvStubFetch (simulate_request (JStr type) (JStr gid)); EvDateNow t]
         ++ rs ++ [EvStoragePut value (writable (storage w))]
         ++ (if writable (storage w)
             then calls ++ [EvInsert bound (accepts_insert (DB w))]
                  ++ (if accepts_insert (DB w)
                      then [EvDelete (accepts_delete (DB w))] else [])
             else []).
Proof.
  intros Hb Ht Hv gid t simulation.
  apply validTypes_includes in Hv as Hinc.
  set (w2 := {| this := this w; storage := storage w; DB := DB w;
                ticks := S (ticks w); draws := S (draws w);
                log := (log w ++ [EvDateNow (clock env (ticks w))])
                       ++ [EvRandom (random env (draws w))] |}).
  set (forwarded := simulate_request (JStr type) (JStr gid)).
  set (w3 := logged [EvStubFetch forwarded] w2).
  destruct (handleSimulateRequest_accepted env type gid w3 Hv)
    as (m & rs & s & calls & Hrs & Hs & Hcalls & Hrun).
  fold forwarded in Hrun.
  assert (Hstub : stub_fetch env forwarded w2 = handleSimulateRequest env forwarded w3)
    by reflexivity.
  rewrite Hrun in Hstub. unfold w3, w2, logged in Hstub.
  cbn [storage ticks DB draws log this] in Hstub. fold t in Hstub.
  exists m, rs, s, calls.
  unfold handleSimulate. rewrite Hb.
  rewrite (bind_return _ _ w w parsed) by (now rewrite (get_property_object _ _ _ Ht)).
  rewrite Ht, Hinc. cbn [negb string_value].
  erewrite bind_return by reflexivity.
  rewrite (bind_return _ _ _ w2 (random env (draws w))) by reflexivity.
  fold (generated_id env w). fold gid.
  fold (simulate_request (JStr type) (JStr gid)). fold forwarded.
  destruct (writable (storage w)) eqn:Hw.
  - erewrite bind_return by exact Hstub.
    cbn [ok status payload negb andb Z.leb Z.compare Pos.compare Pos.compare_cont].
    unfold try_catch, bind, DB_insert, limitStoredMetrics, try_catch, DB_delete,
      emit, ret, jsonResponse, logged, set_DB.
    cbn [DB this storage ticks draws log].
    destruct (accepts_insert (DB w));
      [cbn [DB insert_row accepts_delete]; destruct (accepts_delete (DB w)) |];
      cbn; do 2 eexists; (split; [reflexivity |]).
    all: split; [exact Hrs |]; split; [exact Hs |]; split; [exact Hcalls |].
    all: split; [reflexivity |]; split; [reflexivity |]; split; [reflexivity |].
    all: split; [reflexivity |].
    all: apply appended_logged; cbn [log app];
      repeat (rewrite <- app_assoc; cbn [app]); reflexivity.
  - erewrite bind_throw by exact Hstub.
    do 2 eexists. split; [reflexivity |].
    split; [exact Hrs |]. split; [exact Hs |]. split; [exact Hcalls |].
    split; [reflexivity |]. split; [reflexivity |]. split; [reflexivity |].
    split; [reflexivity |].
    apply appended_logged. cbn [log app].
    repeat (rewrite <- app_assoc; cbn [app]). reflexivity.
Qed.

(** X1. A create-simulation request whose body is not JSON, or whose
    [type] is not one of the three tags, is answered 400 and leaves the
    world exactly as it was: nothing is forwarded to the object, the clock
    is not read, nothing is written. *)
Theorem X1_handleSimulate_rejects_without_effects
    (env : Env) (request : Request) (w : World) :
  body request = None
  \/ (exists parsed, body request = Some parsed
                     /\ parsed <> JNull /\ parsed <> JUndefined
                     /\ includes validTypes (get_property parsed "type") = false) ->
  exists r, handleSimulate env request w = (Return r, w)
            /\ status r = 400
            /\ exists error message, payload r = ErrorPayload error message.
Proof.
  intros [Hb | (parsed & Hb & Hnull & Hundef & Hinc)];
    unfold handleSimulate; rewrite Hb.
  - eexists. split; [reflexivity |]. split; [reflexivity | eauto].
  - rewrite (bind_return _ _ w w parsed) by (destruct parsed; try congruence; reflexivity).
    rewrite Hinc. eexists. split; [reflexivity |]. split; [reflexivity | eauto].
Qed.

Lemma X1_witness :
  exists r, handleSimulate (sample_env NoAI) (api_simulate "flood") after_first_simulation
            = (Return r, after_first_simulation)
            /\ status r = 400.
Proof.
  destruct (X1_handleSimulate_rejects_without_effects (sample_env NoAI)
              (api_simulate "flood") after_first_simulation) as (r & Hrun & Hst & _).
  - right. exists (JObj [("type", JStr "flood")]).
    split; [reflexivity |]. split; [discriminate |]. split; [discriminate | reflexivity].
  - exists r. split; [exact Hrun | exact Hst].
Defined.

(** X2. When the durable write and the INSERT both succeed, the response,
    the state of the object and the new history row agree: the same
    generated identifier, tag, timestamp, metrics and explanation; the row
    takes the next key of the table, and the key counter moves by one. *)
Theorem X2_response_state_and_row_agree
    (env : Env) (request : Request) (parsed : JsValue) (type : string) (w : World) :
  body request = Some parsed ->
  get_property parsed "type" = JStr type ->
  In type validTypes ->
  writable (storage w) = true ->
  accepts_insert (DB w) = true ->
  exists (m : Metrics) (s : string) (w' : World),
    let gid := generated_id env w in
    let t := clock env (S (ticks w)) in
    let row := {| row_id := next_id (DB w);
                  values := bound_values gid type m (Some s) t |} in
    handleSimulate env request w
      = (Return {| status := 200;
                   payload := ApiSimulatePayload gid type m (Some s) t |}, w')
    /\ this w' = {| currentSimulation :=
                      Some {| id := gid; type := type; startTime := t; isActive := true |};
                    metrics := m |}
    /\ rows (DB w') = (if accepts_delete (DB w)
                       then delete_not_in (newest_ids env (rows (DB w) ++ [row]))
                                          (rows (DB w) ++ [row])
                       else rows (DB w) ++ [row])
    /\ next_id (DB w') = next_id (DB w) + 1.
Proof.
  intros Hb Ht Hv Hw Hi.
  destruct (handleSimulate_accepted env request parsed type w Hb Ht Hv)
    as (m & rs & s & calls & c & w' & Hrun & _ & _ & _ & Hc & Hthis & _ & Hdb & _).
  rewrite Hw, Hi in Hc. rewrite Hw, Hi in Hdb. cbn [andb] in Hdb.
  exists m, s, w'. cbv zeta. subst c.
  split; [exact Hrun |]. split; [exact Hthis |]. rewrite Hdb.
  destruct (accepts_delete (DB w)); split; reflexivity.
Qed.

Lemma X2_witness :
  exists (r : Response) (w' : World),
    handleSimulate (sample_env answering_ai) (api_simulate "ddos") (fresh_world true)
      = (Return r, w')
    /\ status r = 200
    /\ next_id (DB w') = 2.
Proof.
  destruct (X2_response_state_and_row_agree (sample_env answering_ai)
              (api_simulate "ddos") (JObj [("type", JStr "ddos")]) "ddos"
              (fresh_world true) eq_refl eq_refl ltac:(simpl; auto) eq_refl eq_refl)
    as (m & s & w' & Hrun & _ & _ & Hnext).
  eexists. exists w'. split; [exact Hrun |]. split; [reflexivity | exact Hnext].
Defined.

(** X3. When D1 rejects the INSERT the request is answered 500 "Database
    error" and the table is what it was, but the simulation has taken
    place in the object: its state is the new record with its metrics,
    and the durable storage holds them. *)
Theorem X3_rejected_insert_leaves_the_object_updated
    (env : Env) (request : Request) (parsed : JsValue) (type : string) (w : World) :
  body request = Some parsed ->
  get_property parsed "type" = JStr type ->
  In type validTypes ->
  writable (storage w) = true ->
  accepts_insert (DB w) = false ->
  exists (m : Metrics) (w' : World),
    let record := {| id := generated_id env w; type := type;
                     startTime := clock env (S (ticks w)); isActive := true |} in
    handleSimulate env request w
      = (Return {| status := 500;
                   payload := ErrorPayload "Database error"
                                (Some "Could not store metrics in D1") |}, w')
    /\ DB w' = DB w
    /\ this w' = {| currentSimulation := Some record; metrics := m |}
    /\ in_sync w'.
Proof.
  intros Hb Ht Hv Hw Hi.
  destruct (handleSimulate_accepted env request parsed type w Hb Ht Hv)
    as (m & rs & s & calls & c & w' & Hrun & _ & _ & _ & Hc & Hthis & Hst & Hdb & _).
  rewrite Hw, Hi in Hc. rewrite Hw, Hi in Hdb. rewrite Hw in Hst.
  exists m, w'. cbv zeta. subst c.
  split; [exact Hrun |]. split; [exact Hdb |]. split; [exact Hthis |].
  unfold in_sync. rewrite Hst, Hthis. reflexivity.
Qed.

Lemma X3_witness :
  exists (r : Response) (w' : World),
    handleSimulate (sample_env NoAI) (api_simulate "spike") insert_rejected = (Return r, w')
    /\ status r = 500
    /\ DB w' = DB insert_rejected
    /\ this w' <> this insert_rejected.
Proof.
  destruct (X3_rejected_insert_leaves_the_object_updated (sample_env NoAI)
              (api_simulate "spike") (JObj [("type", JStr "spike")]) "spike"
              insert_rejected eq_refl eq_refl ltac:(simpl; auto) eq_refl eq_refl)
    as (m & w' & Hrun & Hdb & Hthis & _).
  eexists. exists w'. split; [exact Hrun |]. split; [reflexivity |].
  split; [exact Hdb |]. rewrite Hthis. discriminate.
Defined.

(** X4. When D1 rejects the pruning DELETE the request still succeeds:
    the answer is 200, the new row is in the table and no row has gone. *)
Theorem X4_rejected_prune_does_not_fail_the_request
    (env : Env) (request : Request) (parsed : JsValue) (type : string) (w : World) :
  body request = Some parsed ->
  get_property parsed "type" = JStr type ->
  In type validTypes ->
  writable (storage w) = true ->
  accepts_insert (DB w) = true ->
  accepts_delete (DB w) = false ->
  exists (r : Response) (bound : RowValues) (w' : World),
    handleSimulate env request w = (Return r, w')
    /\ status r = 200
    /\ rows (DB w') = rows (DB w) ++ [{| row_id := next_id (DB w); values := bound |}]
    /\ simulation_id bound = generated_id env w.
Proof.
  intros Hb Ht Hv Hw Hi Hd.
  destruct (handleSimulate_accepted env request parsed type w Hb Ht Hv)
    as (m & rs & s & calls & c & w' & Hrun & _ & _ & _ & Hc & _ & _ & Hdb & _).
  rewrite Hw, Hi in Hc. rewrite Hw, Hi, Hd in Hdb. cbn [andb] in Hdb.
  subst c. eexists. eexists. exists w'.
  split; [exact Hrun |]. split; [reflexivity |]. rewrite Hdb.
  split; reflexivity.
Qed.

Lemma X4_witness :
  exists (r : Response) (w' : World),
    handleSimulate (sample_env NoAI) (api_simulate "normal") delete_rejected = (Return r, w')
    /\ status r = 200
    /\ length (rows (DB w')) = 1%nat.
Proof.
  destruct (X4_rejected_prune_does_not_fail_the_request (sample_env NoAI)
              (api_simulate "normal") (JObj [("type", JStr "normal")]) "normal"
              delete_rejected eq_refl eq_refl ltac:(simpl; auto) eq_refl eq_refl eq_refl)
    as (r & bound & w' & Hrun & Hst & Hrows & _).
  exists r, w'. split; [exact Hrun |]. split; [exact Hst |].
  rewrite Hrows. reflexivity.
Defined.

(** ** The routes of the Worker *)

(** Every way [handleSimulate] can end. *)
Lemma handleSimulate_outcome (env : Env) (request : Request) (w : World) :
  exists (c : Completion Response) (w' : World),
    handleSimulate env request w = (c, w')
    /\ ((exists r, c = Return r /\ In (status r) [200; 400; 500])
        \/ exists e, c = Throw e).
Proof.
  destruct (body request) as [parsed |] eqn:Hb.
  - destruct (includes validTypes (get_property parsed "type")) eqn:Hinc.
    + destruct (includes_string _ _ Hinc) as (type & Ht & Hv).
      destruct (handleSimulate_accepted env request parsed type w Hb Ht Hv)
        as (m & rs & s & calls & c & w' & Hrun & _ & _ & _ & Hc & _).
      exists c, w'. split; [exact Hrun |]. subst c.
      destruct (writable (storage w)); [| right; eauto].
      destruct (accepts_insert (DB w)); left; eexists; (split; [reflexivity |]);
        cbn; auto.
    + unfold handleSimulate. rewrite Hb.
      destruct parsed;
        try (do 2 eexists; split; [reflexivity |]; right; eauto; fail).
      all: rewrite (bind_return _ _ w w _) by reflexivity; rewrite Hinc.
      all: do 2 eexists; split; [reflexivity |]; left; eexists;
        (split; [reflexivity |]); cbn; auto.
  - unfold handleSimulate. rewrite Hb. do 2 eexists. split; [reflexivity |].
    left. eexists. split; [reflexivity |]. cbn; auto.
Qed.

Lemma handleGetStatus_returns (env : Env) (w : World) :
  let now := clock env (ticks w) in
  handleGetStatus env w =
    (Return {| status := 200;
               payload := StatusPayload
                 (option_map (fun s => with_isActive (now - startTime s <? 30000) s)
                             (currentSimulation (this w)))
                 (metrics (this w)) now |},
     {| this := this w; storage := storage w; DB := DB w;
        ticks := S (ticks w); draws := draws w;
        log := log w ++ [EvStubFetch {| method := "GET"; pathname := "/status";
                                        body := None |};
                         EvDateNow now] |}).
Proof.
  cbv zeta. unfold handleGetStatus, stub_fetch.
  set (req := {| method := "GET"; pathname := "/status"; body := None |}).
  assert (Hdo : DO_fetch env req = handleStatusRequest env) by reflexivity.
  rewrite Hdo.
  erewrite bind_return.
  2: { erewrite bind_return by reflexivity. apply handleStatusRequest_returns. }
  cbn. unfold ret. do 2 f_equal. now rewrite <- app_assoc.
Qed.

(** X5. The Worker always answers: whatever the request and whatever the
    object, the durable storage and D1 do, [fetch] returns a response and
    does not throw, and the status of the response is one of 200, 204,
    400, 404, 405 and 500. *)
Theorem X5_Worker_fetch_always_answers
    (env : Env) (request : Request) (answers : bool) (w : World) :
  exists (r : ApiResponse) (w' : World),
    Worker_fetch env request answers w = (Return r, w')
    /\ In (api_status r) [200; 204; 400; 404; 405; 500].
Proof.
  unfold Worker_fetch.
  destruct (String.eqb (method request) "OPTIONS").
  { do 2 eexists. split; [reflexivity |]. cbn; tauto. }
  unfold try_catch.
  destruct (String.eqb (pathname request) "/api/simulate").
  { destruct (negb (String.eqb (method request) "POST")).
    - do 2 eexists. split; [reflexivity |]. cbn; tauto.
    - destruct (handleSimulate_outcome env request w)
        as (c & w' & Hrun & [(r & -> & Hst) | (e & ->)]).
      + erewrite bind_return by exact Hrun.
        do 2 eexists. split; [reflexivity |]. cbn in *. tauto.
      + erewrite bind_throw by exact Hrun.
        do 2 eexists. split; [reflexivity |]. cbn; tauto. }
  destruct (String.eqb (pathname request) "/api/metrics").
  { unfold handleGetMetrics, try_catch, bind, DB_select_recent.
    destruct answers; do 2 eexists; (split; [reflexivity |]); cbn; tauto. }
  destruct (String.eqb (pathname request) "/api/status").
  { erewrite bind_return by apply handleGetStatus_returns.
    do 2 eexists. split; [reflexivity |]. cbn; tauto. }
  do 2 eexists. split; [reflexivity |]. cbn; tauto.
Qed.

(** X6. When the durable storage of the object rejects the write, a valid
    create-simulation request is answered 500 "Internal Server Error": no
    row is inserted and D1 is not written at all, and the object keeps the
    record of the failed call in memory. *)
Theorem X6_failed_durable_write_answers_500
    (env : Env) (request : Request) (parsed : JsValue) (type : string)
    (answers : bool) (w : World) :
  method request = "POST" ->
  pathname request = "/api/simulate" ->
  body request = Some parsed ->
  get_property parsed "type" = JStr type ->
  In type validTypes ->
  writable (storage w) = false ->
  exists w',
    Worker_fetch env request answers w
      = (Return {| api_status := 500;
                   api_body := Json (ErrorPayload "Internal Server Error"
                                       (Some "Unexpected failure occurred")) |}, w')
    /\ DB w' = DB w
    /\ storage w' = storage w
    /\ existsb is_D1_write (appended w w') = false
    /\ exists m, this w' =
         {| currentSimulation :=
              Some {| id := generated_id env w; type := type;
                      startTime := clock env (S (ticks w)); isActive := true |};
            metrics := m |}.
Proof.
  intros Hm Hp Hb Ht Hv Hw.
  destruct (handleSimulate_accepted env request parsed type w Hb Ht Hv)
    as (m & rs & s & calls & c & w' & Hrun & Hrs & _ & _ & Hc & Hthis & Hst & Hdb & Happ).
  rewrite Hw in Hc, Hst, Hdb, Happ. cbn [andb] in Hdb. subst c.
  exists w'. unfold Worker_fetch. rewrite Hm, Hp. cbn [String.eqb Ascii.eqb Bool.eqb negb].
  unfold try_catch. erewrite bind_throw by exact Hrun.
  split; [reflexivity |]. split; [exact Hdb |]. split; [exact Hst |].
  split; [| exists m; exact Hthis].
  rewrite Happ. cbn. rewrite existsb_app. cbn. rewrite orb_false_r.
  clear - Hrs. induction rs as [| e rs IH]; [reflexivity |].
  cbn in Hrs. apply andb_true_iff in Hrs as [He Hrs].
  cbn. rewrite (IH Hrs). destruct e; cbn in *; congruence.
Qed.

Lemma X6_witness :
  exists w',
    Worker_fetch (sample_env NoAI) (api_simulate "ddos") true storage_offline
      = (Return {| api_status := 500;
                   api_body := Json (ErrorPayload "Internal Server Error"
                                       (Some "Unexpected failure occurred")) |}, w')
    /\ DB w' = DB storage_offline.
Proof.
  destruct (X6_failed_durable_write_answers_500 (sample_env NoAI)
              (api_simulate "ddos") (JObj [("type", JStr "ddos")]) "ddos" true
              storage_offline eq_refl eq_refl eq_refl eq_refl
              ltac:(simpl; auto) eq_refl)
    as (w' & Hrun & Hdb & _).
  exists w'. split; [exact Hrun | exact Hdb].
Defined.

(** X7. A create-simulation request whose JSON body is [null] is not
    answered 400 like other bad bodies: reading [type] off it throws, and
    the Worker answers 500 "Internal Server Error", with no effect. *)
Theorem X7_null_body_answers_500
    (env : Env) (request : Request) (answers : bool) (w : World) :
  method request = "POST" ->
  pathname request = "/api/simulate" ->
  body request = Some JNull ->
  Worker_fetch env request answers w
    = (Return {| api_status := 500;
                 api_body := Json (ErrorPayload "Internal Server Error"
                                     (Some "Unexpected failure occurred")) |}, w).
Proof.
  intros Hm Hp Hb. unfold Worker_fetch. rewrite Hm, Hp.
  cbn [String.eqb Ascii.eqb Bool.eqb negb].
  unfold try_catch, handleSimulate. rewrite Hb. reflexivity.
Qed.

Lemma X7_witness :
  Worker_fetch (sample_env NoAI)
    {| method := "POST"; pathname := "/api/simulate"; body := Some JNull |}
    true after_first_simulation
  = (Return {| api_status := 500;
               api_body := Json (ErrorPayload "Internal Server Error"
                                   (Some "Unexpected failure occurred")) |},
     after_first_simulation).
Proof.
  apply X7_null_body_answers_500; reflexivity.
Defined.

(** X8. The status route of the Worker answers exactly what the object
    answers, with no timestamp of its own; it reads the clock once and
    changes neither the object, nor the durable storage, nor D1. *)
Theorem X8_status_route_is_read_only (env : Env) (w : World) :
  exists (r : Response) (w' : World),
    handleGetStatus env w = (Return r, w')
    /\ Return r = fst (handleStatusRequest env w)
    /\ status r = 200
    /\ this w' = this w
    /\ storage w' = storage w
    /\ DB w' = DB w
    /\ ticks w' = S (ticks w)
    /\ draws w' = draws w.
Proof.
  do 2 eexists. split; [apply handleGetStatus_returns |].
  rewrite handleStatusRequest_returns. repeat split; reflexivity.
Qed.

(** ** Recent history *)

Lemma newest_first_prefix (env : Env) (n : nat) (table : list HistoryRow) :
  orders_newest_first env ->
  StronglySorted newer_or_equal
    (take n (order_by_timestamp_desc env table)
     ++ drop n (order_by_timestamp_desc env table)).
Proof.
  intros Horder. rewrite take_drop.
  apply Sorted_StronglySorted; [apply _ | apply Horder].
Qed.

(** X9. The list-recent route answers 200 with at most five rows of the
    table, newest first, and no row left out is newer than a row listed;
    when D1 does not answer it answers 500 "Database error".  In both
    cases the object, the durable storage and the table are unchanged. *)
Theorem X9_recent_history_lists_the_newest_five (env : Env) (w : World) :
  orders_newest_first env ->
  (exists (chosen : list HistoryRow) (w' : World),
     handleGetMetrics env true w
       = (Return {| api_status := 200;
                    api_body := MetricsBody (format_row <$> chosen)
                                            (clock env (ticks w)) |}, w')
     /\ length chosen = Nat.min 5 (length (rows (DB w)))
     /\ (forall r, r ∈ chosen -> r ∈ rows (DB w))
     /\ Sorted newer_or_equal chosen
     /\ (forall r k, r ∈ rows (DB w) -> r ∉ chosen -> k ∈ chosen ->
                     row_timestamp r <= row_timestamp k)
     /\ this w' = this w /\ storage w' = storage w /\ DB w' = DB w)
  /\ handleGetMetrics env false w
     = (Return {| api_status := 500;
                  api_body := Json (ErrorPayload "Database error"
                                      (Some "Unable to retrieve metrics")) |}, w).
Proof.
  intros Horder. split; [| reflexivity].
  set (sorted := order_by_timestamp_desc env (rows (DB w))).
  destruct (Horder (rows (DB w))) as [Hperm Hsorted]. fold sorted in Hperm, Hsorted.
  pose proof (newest_first_prefix env 5 (rows (DB w)) Horder) as Hss.
  fold sorted in Hss.
  exists (take 5 sorted). eexists. split; [reflexivity |].
  split; [now rewrite length_take, (Permutation_length Hperm) |].
  split.
  { intros r Hr. rewrite <- Hperm. rewrite <- (take_drop 5 sorted).
    apply elem_of_app. now left. }
  split; [apply StronglySorted_Sorted, (StronglySorted_app_1_l _ _ _ Hss) |].
  split; [| repeat split; reflexivity].
  intros r k Hr Hnot Hk.
  rewrite <- Hperm, <- (take_drop 5 sorted) in Hr.
  apply elem_of_app in Hr as [Hr | Hr]; [contradiction |].
  exact (StronglySorted_app_1_elem_of _ _ _ k r Hss Hk Hr).
Qed.

Lemma X9_witness :
  orders_newest_first (sample_env NoAI)
  /\ exists (listed : list HistoryRow) (now : Z) (w' : World),
       handleGetMetrics (sample_env NoAI) true after_first_simulation
         = (Return {| api_status := 200; api_body := MetricsBody listed now |}, w')
       /\ DB w' = DB after_first_simulation.
Proof.
  pose proof (merge_sort_orders_newest_first NoAI) as Horder.
  split; [exact Horder |].
  destruct (proj1 (X9_recent_history_lists_the_newest_five (sample_env NoAI)
                     after_first_simulation Horder))
    as (chosen & w' & Hrun & _ & _ & _ & _ & _ & _ & Hdb).
  do 2 eexists. exists w'. split; [exact Hrun | exact Hdb].
Defined.

Lemma toOneDecimal_tenths (k : Z) : (toOneDecimal (inject_Z k / 10) == inject_Z k / 10)%Q.
Proof.
  unfold toOneDecimal, Math_round.
  assert (E : (inject_Z k / 10 * 10 + (1 # 2) == inject_Z k + (1 # 2))%Q) by field.
  rewrite (Qfloor_comp _ _ E), Qfloor_half. reflexivity.
Qed.




(** ** Memory and storage of the object *)

Lemma is_string_inv (v : JsValue) : is_string v = true -> exists s, v = JStr s.
Proof. destruct v; try discriminate. eauto. Qed.

(** The handler reads two properties of the body and nothing else of the
    request. *)
Lemma handleSimulateRequest_reads_two_properties
    (env : Env) (request : Request) (parsed : JsValue) (w : World) :
  body request = Some parsed ->
  parsed <> JNull -> parsed <> JUndefined ->
  handleSimulateRequest env request w
  = handleSimulateRequest env
      (simulate_request (get_property parsed "type")
                        (get_property parsed "simulationId")) w.
Proof.
  intros Hb Hnull Hundef. unfold handleSimulateRequest, simulate_request.
  rewrite Hb. cbn [body].
  rewrite (bind_return _ _ w w parsed) by (destruct parsed; try congruence; reflexivity).
  unfold bind at 2.
  cbn [destructure ret get_property own_property String.eqb Ascii.eqb Bool.eqb].
  reflexivity.
Qed.

Lemma handleSimulateRequest_rejected
    (env : Env) (scenario simulationId : JsValue) (w : World) :
  includes validTypes scenario && is_string simulationId = false ->
  snd (handleSimulateRequest env (simulate_request scenario simulationId) w) = w.
Proof.
  intros H. unfold handleSimulateRequest, simulate_request.
  cbn [body]. unfold bind at 1.
  cbn [destructure ret get_property own_property String.eqb Ascii.eqb Bool.eqb].
  apply andb_false_iff in H as [-> | ->]; [reflexivity |].
  rewrite orb_true_r. reflexivity.
Qed.

Lemma DO_fetch_in_sync (env : Env) (request : Request) (w : World) :
  in_sync w ->
  writable (storage w) = true ->
  in_sync (snd (DO_fetch env request w)).
Proof.
  intros Hsync Hw. unfold DO_fetch.
  destruct (String.eqb (method request) "POST" && endsWith (pathname request) "/simulate").
  - destruct (body request) as [parsed |] eqn:Hb.
    + destruct parsed eqn:Hp;
        try (unfold handleSimulateRequest; rewrite Hb; exact Hsync).
      all: rewrite (handleSimulateRequest_reads_two_properties env request _ w Hb)
        by discriminate.
      all: rewrite <- Hp in *; clear Hp.
      all: destruct (includes validTypes (get_property parsed "type")
                     && is_string (get_property parsed "simulationId")) eqn:Hok;
        [| now rewrite handleSimulateRequest_rejected].
      all: apply andb_true_iff in Hok as [Hinc Hstr].
      all: destruct (includes_string _ _ Hinc) as (type & -> & Hv).
      all: destruct (is_string_inv _ Hstr) as (sid & ->).
      all: destruct (handleSimulateRequest_accepted env type sid w Hv)
        as (m & rs & s & calls & _ & _ & _ & Hrun).
      all: rewrite Hrun, Hw; reflexivity.
    + unfold handleSimulateRequest. rewrite Hb. exact Hsync.
  - destruct (String.eqb (method request) "GET" && endsWith (pathname request) "/status").
    + rewrite handleStatusRequest_returns. exact Hsync.
    + exact Hsync.
Qed.


(** X11. While the durable storage accepts writes, no request to the
    object can make its memory and its storage differ: whatever the
    method, the path and the body, if the two agree before [fetch] they
    agree after it, and the object built again from the storage (a cold
    start) is the object that was running. *)
Theorem X11_fetch_keeps_memory_and_storage_in_sync
    (env : Env) (request : Request) (w : World) :
  in_sync w ->
  writable (storage w) = true ->
  let w' := snd (DO_fetch env request w) in
  in_sync w' /\ restart w' = w'.
Proof.
  intros Hsync Hw w'.
  pose proof (DO_fetch_in_sync env request w Hsync Hw) as Hafter.
  split; [exact Hafter | now apply restart_in_sync].
Qed.

Lemma X11_witness :
  in_sync after_first_simulation
  /\ restart (snd (DO_fetch (sample_env NoAI)
                     (simulate_request (JStr "ddos") (JStr "sim-2"))
                     after_first_simulation))
     = snd (DO_fetch (sample_env NoAI)
              (simulate_request (JStr "ddos") (JStr "sim-2"))
              after_first_simulation).
Proof.
  assert (Hsync : in_sync after_first_simulation) by reflexivity.
  split; [exact Hsync |].
  exact (proj2 (X11_fetch_keeps_memory_and_storage_in_sync (sample_env NoAI)
                  (simulate_request (JStr "ddos") (JStr "sim-2"))
                  after_first_simulation Hsync eq_refl)).
Defined.

(** ** The history table behind the Worker *)

(** What one create-simulation request does to the table: nothing, or one
    INSERT of a row made by the Worker, followed by the pruning DELETE
    when D1 accepts it. *)
Lemma handleSimulate_table (env : Env) (request : Request) (w : World) :
  let w' := snd (handleSimulate env request w) in
  DB w' = DB w
  \/ exists bound : RowValues,
       In (simulation_type bound) validTypes
       /\ startsWith (simulation_id bound) "sim-" = true
       /\ (exists s, ai_explanation bound = Some s /\ s <> "")
       /\ DB w' = (if accepts_delete (DB w)
                   then prune env (insert_row bound (DB w))
                   else insert_row bound (DB w)).
Proof.
  cbv zeta. destruct (body request) as [parsed |] eqn:Hb.
  - destruct (includes validTypes (get_property parsed "type")) eqn:Hinc.
    + destruct (includes_string _ _ Hinc) as (type & Ht & Hv).
      destruct (handleSimulate_accepted env request parsed type w Hb Ht Hv)
        as (m & rs & s & calls & c & w' & Hrun & _ & Hs & _ & _ & _ & _ & Hdb & _).
      rewrite Hrun. cbn [snd]. rewrite Hdb.
      destruct (writable (storage w) && accepts_insert (DB w)); [| now left].
      right.
      exists (bound_values (generated_id env w) type m (Some s) (clock env (S (ticks w)))).
      split; [exact Hv |].
      split; [apply generated_id_shape |].
      split; [exists s; split; [reflexivity | exact Hs] | reflexivity].
    + left. unfold handleSimulate. rewrite Hb.
      destruct parsed; try reflexivity.
      all: rewrite (bind_return _ _ w w _) by reflexivity; rewrite Hinc; reflexivity.
  - left. unfold handleSimulate. rewrite Hb. reflexivity.
Qed.

(** X12. Whatever the request, [handleSimulate] keeps the table as the
    schema wants it: the keys stay unique and below the key counter, the
    counter never goes back, and every row carries one of the three tags,
    an identifier starting with "sim-" and a non-empty explanation. *)
Theorem X12_handleSimulate_keeps_the_table_well_formed
    (env : Env) (request : Request) (w : World) :
  well_keyed (DB w) ->
  Forall row_as_recorded (rows (DB w)) ->
  let w' := snd (handleSimulate env request w) in
  well_keyed (DB w')
  /\ Forall row_as_recorded (rows (DB w'))
  /\ next_id (DB w) <= next_id (DB w').
Proof.
  intros Hkeys Hrows w'.
  destruct (handleSimulate_table env request w)
    as [Hdb | (bound & Htype & Hid & Hexp & Hdb)]; fold w' in Hdb; rewrite Hdb.
  - split; [exact Hkeys |]. split; [exact Hrows | lia].
  - pose proof (insert_row_well_keyed bound (DB w) Hkeys) as Hkeys'.
    assert (Hrows' : Forall row_as_recorded (rows (insert_row bound (DB w)))).
    { cbn. apply Forall_app. split; [exact Hrows |].
      apply Forall_singleton. unfold row_as_recorded. cbn. auto. }
    destruct (accepts_delete (DB w)).
    + split; [now apply prune_well_keyed |]. split; [| cbn; lia].
      cbn [prune rows]. unfold delete_not_in.
      apply Forall_forall. intros r Hr.
      apply list_elem_of_filter in Hr as [_ Hr].
      rewrite Forall_forall in Hrows'. now apply Hrows'.
    + split; [exact Hkeys' |]. split; [exact Hrows' | cbn; lia].
Qed.

Lemma X12_witness :
  well_keyed (DB (fresh_world true))
  /\ well_keyed (DB (snd (handleSimulate (sample_env NoAI) (api_simulate "spike")
                            (fresh_world true)))).
Proof.
  assert (Hkeys : well_keyed (DB (fresh_world true))).
  { split; cbn; [apply NoDup_nil_2 | intros r Hr; inversion Hr]. }
  split; [exact Hkeys |].
  exact (proj1 (X12_handleSimulate_keeps_the_table_well_formed (sample_env NoAI)
                  (api_simulate "spike") (fresh_world true) Hkeys
                  (Forall_nil_2 _))).
Defined.



(** X14. Pruning removes nothing from a table of at most 500 rows, and
    pruning twice is pruning once; [limitStoredMetrics] itself never
    throws, also when D1 rejects the DELETE. *)
Theorem X14_pruning_below_the_cap_is_a_no_op (env : Env) (db : D1) (w : World) :
  orders_newest_first env ->
  well_keyed db ->
  ((length (rows db) <= 500)%nat -> prune env db = db)
  /\ prune env (prune env db) = prune env db
  /\ exists w', limitStoredMetrics env w = (Return tt, w').
Proof.
  intros Horder Hkeys.
  assert (Hnoop : forall d, (length (rows d) <= 500)%nat -> prune env d = d).
  { intros d Hlen. destruct d as [table n ai ad]. unfold prune. cbn in *.
    f_equal. unfold delete_not_in, newest_ids.
    destruct (Horder table) as [Hperm _].
    rewrite take_ge by (rewrite (Permutation_length Hperm); exact Hlen).
    apply filter_all, Forall_forall. intros r Hr.
    apply list_elem_of_fmap_2. now rewrite Hperm. }
  split; [apply Hnoop |]. split.
  - apply Hnoop. cbn [prune rows].
    destruct Hkeys as [Hnd _].
    rewrite (delete_keeps_newest env Horder _ Hnd), (length_newest env Horder).
    unfold retention_cap. lia.
  - unfold limitStoredMetrics, try_catch, DB_delete.
    destruct (accepts_delete (DB w)); eexists; reflexivity.
Qed.

Lemma X14_witness :
  orders_newest_first (sample_env NoAI)
  /\ prune (sample_env NoAI) empty_table = empty_table.
Proof.
  pose proof (merge_sort_orders_newest_first NoAI) as Horder.
  split; [exact Horder |].
  apply (proj1 (X14_pruning_below_the_cap_is_a_no_op (sample_env NoAI) empty_table
                  (fresh_world true) Horder
                  (conj (NoDup_nil_2 : NoDup (row_id <$> rows empty_table))
                        (fun r (Hr : r ∈ rows empty_table) =>
                           match not_elem_of_nil r Hr with end)))).
  cbn. lia.
Defined.

(** ** What a call depends on *)

Lemma generateMetrics_by_draws (env : Env) (type : string) (w1 w2 : World) :
  draws w1 = draws w2 ->
  fst (generateMetrics env type w1) = fst (generateMetrics env type w2).
Proof.
  intros Hd. unfold generateMetrics.
  destruct (String.eqb type "normal");
    [| destruct (String.eqb type "spike");
       [| destruct (String.eqb type "ddos"); [| reflexivity]]];
    unfold generate_normal, generate_spike, generate_ddos, bind, Math_random, ret;
    cbn; rewrite Hd; reflexivity.
Qed.

Lemma getAIExplanation_by_inputs (env : Env) (type : string) (m : Metrics) (w1 w2 : World) :
  fst (getAIExplanation env type m w1) = fst (getAIExplanation env type m w2).
Proof.
  unfold getAIExplanation. destruct (AI env) as [| | run]; try reflexivity.
  unfold try_catch, bind, AI_run, emit, bind, ret, throw.
  destruct (run (build_prompt type m)); reflexivity.
Qed.

(** The accepted call again, with the metrics and the explanation tied to
    the generator and to the provider. *)
Lemma handleSimulateRequest_run
    (env : Env) (type simulationId : string) (w : World) :
  In type validTypes ->
  let t := clock env (ticks w) in
  let simulation := {| id := simulationId; type := type;
                       startTime := t; isActive := true |} in
  let after := handleSimulateRequest env
                 (simulate_request (JStr type) (JStr simulationId)) w in
  exists (m : Metrics) (wg : World) (s : string),
    generateMetrics env type (snd (Date_now env w)) = (Return m, wg)
    /\ (forall w0, fst (getAIExplanation env type m w0) = Return (Some s))
    /\ fst after = (if writable (storage w)
                    then Return {| status := 200;
                                   payload := SimulatePayload simulation m (Some s) t |}
                    else Throw StorageError)
    /\ this (snd after) = {| currentSimulation := Some simulation; metrics := m |}
    /\ contents (storage (snd after))
       = (if writable (storage w)
          then Some {| stored_currentSimulation := Some simulation;
                       stored_metrics := Some m |}
          else contents (storage w)).
Proof.
  intros Hv t simulation after.
  apply validTypes_includes in Hv as Hinc.
  set (w1 := snd (Date_now env w)).
  destruct (generateMetrics_returns env type w1 Hv) as (m & rs & Hgen & Hrs).
  set (w2 := {| this := this w1; storage := storage w1; DB := DB w1;
                ticks := ticks w1; draws := (draws w1 + length rs)%nat;
                log := log w1 ++ rs |}) in Hgen.
  set (value := {| stored_currentSimulation := Some simulation;
                   stored_metrics := Some m |}).
  set (w3 := {| this := {| currentSimulation := Some simulation; metrics := m |};
                storage := {| contents := Some value; writable := true |};
                DB := DB w; ticks := S (ticks w);
                draws := (draws w + length rs)%nat;
                log := (log w ++ [EvDateNow t]) ++ rs ++ [EvStoragePut value true] |}).
  destruct (getAIExplanation_returns env type m w3 Hv) as (s & calls & Hai & Hs & Hcalls).
  exists m, w2, s. split; [exact Hgen |]. split.
  { intros w0. now rewrite (getAIExplanation_by_inputs env type m w0 w3), Hai. }
  assert (Hafter :
    after = if writable (storage w)
            then (Return {| status := 200;
                            payload := SimulatePayload simulation m (Some s) t |},
                  logged calls w3)
            else (Throw StorageError,
                  {| this := {| currentSimulation := Some simulation; metrics := m |};
                     storage := storage w; DB := DB w; ticks := S (ticks w);
                     draws := (draws w + length rs)%nat;
                     log := (log w ++ [EvDateNow t]) ++ rs
                            ++ [EvStoragePut value false] |})).
  { unfold after, handleSimulateRequest, simulate_request.
    cbn [body]. unfold bind at 1.
    cbn [destructure ret get_property own_property String.eqb Ascii.eqb Bool.eqb].
    rewrite Hinc. cbn [negb orb is_string string_value].
    rewrite (bind_return _ _ w w1 t) by reflexivity.
    rewrite (bind_return _ _ w1 w2 m) by exact Hgen.
    erewrite bind_return by reflexivity.
    erewrite bind_return by reflexivity.
    unfold assign_metrics, assign_currentSimulation, set_this. cbn.
    destruct (writable (storage w)) eqn:Hw.
    - erewrite (bind_return persistState _ _ w3).
      + erewrite bind_return by exact Hai. reflexivity.
      + unfold persistState, storage_put; cbn. rewrite Hw.
        unfold emit, logged, set_storage, w3; cbn. do 2 f_equal.
        now rewrite <- !app_assoc.
    - erewrite bind_throw; [reflexivity |].
      unfold persistState, storage_put; cbn. rewrite Hw.
      unfold emit, logged; cbn. do 2 f_equal. now rewrite <- !app_assoc. }
  rewrite Hafter. destruct (writable (storage w)); repeat split; reflexivity.
Qed.

(** X15. An accepted call does not depend on what the object held before
    it: two worlds with the same clock reading, the same draws and the
    same answer of the storage give the same completion and the same
    in-memory state, and the same stored state when the write succeeds,
    whatever [currentSimulation], [metrics] and the stored state were. *)
Theorem X15_state_reflects_only_the_last_call
    (env : Env) (type simulationId : string) (w1 w2 : World) :
  In type validTypes ->
  ticks w1 = ticks w2 ->
  draws w1 = draws w2 ->
  writable (storage w1) = writable (storage w2) ->
  let call := handleSimulateRequest env
                (simulate_request (JStr type) (JStr simulationId)) in
  fst (call w1) = fst (call w2)
  /\ this (snd (call w1)) = this (snd (call w2))
  /\ (writable (storage w1) = true ->
      contents (storage (snd (call w1))) = contents (storage (snd (call w2)))).
Proof.
  intros Hv Ht Hd Hw call.
  destruct (handleSimulateRequest_run env type simulationId w1 Hv)
    as (m1 & wg1 & s1 & Hgen1 & Hai1 & Hfst1 & Hthis1 & Hst1).
  destruct (handleSimulateRequest_run env type simulationId w2 Hv)
    as (m2 & wg2 & s2 & Hgen2 & Hai2 & Hfst2 & Hthis2 & Hst2).
  assert (Hm : m1 = m2).
  { pose proof (generateMetrics_by_draws env type (snd (Date_now env w1))
                  (snd (Date_now env w2)) Hd) as H.
    rewrite Hgen1, Hgen2 in H. now injection H. }
  subst m2.
  assert (Hs : s1 = s2).
  { pose proof (Hai1 w1) as H1. rewrite (Hai2 w1) in H1. now injection H1. }
  subst s2. fold call in Hfst1, Hthis1, Hst1, Hfst2, Hthis2, Hst2.
  rewrite Hfst1, Hfst2, Hthis1, Hthis2, Hst1, Hst2, <- Hw, Ht.
  split; [reflexivity |]. split; [reflexivity |].
  intros Hw1. rewrite Hw1. reflexivity.
Qed.

Lemma X15_witness :
  this busy_world <> this (fresh_world true)
  /\ this (snd (handleSimulateRequest (sample_env NoAI)
                  (simulate_request (JStr "ddos") (JStr "sim-9")) (fresh_world true)))
     = this (snd (handleSimulateRequest (sample_env NoAI)
                    (simulate_request (JStr "ddos") (JStr "sim-9")) busy_world)).
Proof.
  split; [discriminate |].
  exact (proj1 (proj2 (X15_state_reflects_only_the_last_call (sample_env NoAI)
                         "ddos" "sim-9" (fresh_world true) busy_world
                         ltac:(simpl; auto) eq_refl eq_refl eq_refl))).
Defined.

(** ** The text of the explanation *)

Lemma trim_end_step (c : ascii) (rest : string) :
  trim_end (String c rest)
  = match trim_end rest with
    | EmptyString => if is_white_space c then EmptyString else String c EmptyString
    | kept => String c kept
    end.
Proof. reflexivity. Qed.

Lemma trim_end_idempotent (s : string) : trim_end (trim_end s) = trim_end s.
Proof.
  induction s as [| c rest IH]; [reflexivity |].
  rewrite trim_end_step. destruct (trim_end rest) as [| a kept] eqn:E.
  - destruct (is_white_space c) eqn:Hc; [reflexivity |].
    rewrite trim_end_step. cbn [trim_end]. now rewrite Hc.
  - rewrite trim_end_step, IH. reflexivity.
Qed.

Lemma trim_end_keeps_the_head (c : ascii) (rest : string) :
  is_white_space c = false -> exists kept, trim_end (String c rest) = String c kept.
Proof.
  intros Hc. rewrite trim_end_step.
  destruct (trim_end rest); [rewrite Hc |]; eauto.
Qed.

Lemma trim_start_shape (s : string) :
  trim_start s = ""
  \/ exists c rest, trim_start s = String c rest /\ is_white_space c = false.
Proof.
  induction s as [| c rest IH]; [now left |].
  cbn [trim_start]. destruct (is_white_space c) eqn:Hc; [exact IH |].
  right. eauto.
Qed.

Lemma trim_idempotent (s : string) : trim (trim s) = trim s.
Proof.
  unfold trim.
  destruct (trim_start_shape s) as [-> | (c & rest & -> & Hc)]; [reflexivity |].
  destruct (trim_end_keeps_the_head c rest Hc) as (kept & Hk).
  rewrite Hk. cbn [trim_start]. rewrite Hc, <- Hk.
  apply trim_end_idempotent.
Qed.

(** X16. For a valid tag, the explanation [getAIExplanation] returns is
    already trimmed: it has no white space at either end, whether it is
    the text of the capability or the canned one. *)
Theorem X16_explanation_is_trimmed
    (env : Env) (type : string) (m : Metrics) (w w' : World) (s : string) :
  In type validTypes ->
  getAIExplanation env type m w = (Return (Some s), w') ->
  trim s = s.
Proof.
  intros Hv.
  assert (Hf : forall f, fallback type = Some f -> trim f = f).
  { intros f. destruct (valid_type_cases type Hv) as [-> | [-> | ->]];
      intros [= <-]; vm_compute; reflexivity. }
  unfold getAIExplanation. destruct (AI env) as [| | run].
  - unfold ret. intros [= H _]. now apply Hf.
  - unfold ret. intros [= H _]. now apply Hf.
  - unfold try_catch, bind, AI_run, emit, bind, ret, throw.
    destruct (run (build_prompt type m)) as [aiResult | |].
    + destruct (String.eqb (trimmed (responseText aiResult)) "") eqn:E.
      * intros [= H _]. now apply Hf.
      * intros [= <- _]. unfold trimmed.
        destruct (responseText aiResult); try reflexivity.
        apply trim_idempotent.
    + intros [= H _]. now apply Hf.
    + intros [= H _]. now apply Hf.
Qed.

Lemma X16_witness :
  trim "Cloudflare absorbs the surge." = "Cloudflare absorbs the surge.".
Proof.
  refine (X16_explanation_is_trimmed (sample_env answering_ai) "spike"
            getInitialMetrics (fresh_world true) _ _ ltac:(simpl; auto) _).
  vm_compute. reflexivity.
Defined.

(** ** Calls in sequence *)

(** X17. Two accepted calls in sequence: both are answered 200, the
    second starts one clock reading after the first, and afterwards the
    object and the durable storage hold the record and the metrics of the
    second call only.  With a clock that does not go back, the start time
    of the first is not after the start time of the second. *)
Theorem X17_two_calls_in_sequence
    (env : Env) (type1 id1 type2 id2 : string) (w : World) :
  In type1 validTypes ->
  In type2 validTypes ->
  writable (storage w) = true ->
  let first := handleSimulateRequest env (simulate_request (JStr type1) (JStr id1)) w in
  let second := handleSimulateRequest env (simulate_request (JStr type2) (JStr id2))
                  (snd first) in
  let t1 := clock env (ticks w) in
  let t2 := clock env (S (ticks w)) in
  let record2 := {| id := id2; type := type2; startTime := t2; isActive := true |} in
  exists (m1 m2 : Metrics) (s1 s2 : string),
    fst first = Return {| status := 200;
                          payload := SimulatePayload
                            {| id := id1; type := type1; startTime := t1; isActive := true |}
                            m1 (Some s1) t1 |}
    /\ fst second = Return {| status := 200;
                             payload := SimulatePayload record2 m2 (Some s2) t2 |}
    /\ this (snd second) = {| currentSimulation := Some record2; metrics := m2 |}
    /\ in_sync (snd second)
    /\ ((forall i j : nat, (i <= j)%nat -> clock env i <= clock env j) -> t1 <= t2).
Proof.
  intros Hv1 Hv2 Hw first second t1 t2 record2.
  destruct (handleSimulateRequest_accepted env type1 id1 w Hv1)
    as (m1 & rs1 & s1 & calls1 & _ & _ & _ & Hrun1).
  rewrite Hw in Hrun1. fold first in Hrun1.
  destruct (handleSimulateRequest_accepted env type2 id2 (snd first) Hv2)
    as (m2 & rs2 & s2 & calls2 & _ & _ & _ & Hrun2).
  fold second in Hrun2. rewrite Hrun1 in Hrun2. cbn [snd storage writable ticks] in Hrun2.
  exists m1, m2, s1, s2. rewrite Hrun1, Hrun2.
  split; [reflexivity |]. split; [reflexivity |]. split; [reflexivity |].
  split; [reflexivity |].
  intros Hmono. apply Hmono. lia.
Qed.

Lemma X17_witness :
  exists (r : Response),
    fst (handleSimulateRequest (sample_env answering_ai)
           (simulate_request (JStr "ddos") (JStr "sim-2")) after_first_simulation)
    = Return r
    /\ status r = 200.
Proof.
  destruct (X17_two_calls_in_sequence (sample_env answering_ai)
              "normal" "sim-1" "ddos" "sim-2" (fresh_world true)
              ltac:(simpl; auto) ltac:(simpl; auto) eq_refl)
    as (m1 & m2 & s1 & s2 & _ & Hsecond & _).
  eexists. split; [exact Hsecond | reflexivity].
Defined.

(** X18. A status read after an accepted call shows the record of that
    call, with [isActive] true exactly when fewer than 30000 ms of clock
    lie between the start and the read, and the metrics of that call.
    This holds also when the durable write of the call was rejected: the
    status is served from memory. *)
Theorem X18_status_after_a_call
    (env : Env) (type simulationId : string) (w : World) (n : nat) :
  In type validTypes ->
  let after := snd (handleSimulateRequest env
                      (simulate_request (JStr type) (JStr simulationId)) w) in
  let start := clock env (ticks w) in
  let now := clock env n in
  fst (handleStatusRequest env (at_reading n after))
  = Return {| status := 200;
              payload := StatusPayload
                (Some {| id := simulationId; type := type; startTime := start;
                         isActive := now - start <? 30000 |})
                (metrics (this after)) now |}.
Proof.
  intros Hv after start now.
  destruct (handleSimulateRequest_accepted env type simulationId w Hv)
    as (m & rs & s & calls & _ & _ & _ & Hrun).
  rewrite handleStatusRequest_returns. cbn [fst at_reading this ticks].
  unfold after. rewrite Hrun.
  destruct (writable (storage w)); reflexivity.
Qed.

Lemma X18_witness :
  exists (m : Metrics),
    fst (handleStatusRequest (sample_env NoAI)
           (at_reading 40 (snd (handleSimulateRequest (sample_env NoAI)
                                  (simulate_request (JStr "spike") (JStr "sim-3"))
                                  (fresh_world false)))))
    = Return {| status := 200;
                payload := StatusPayload
                  (Some {| id := "sim-3"; type := "spike";
                           startTime := 1704067200000; isActive := false |})
                  m 1704067240000 |}.
Proof.
  eexists.
  exact (X18_status_after_a_call (sample_env NoAI) "spike" "sim-3"
           (fresh_world false) 40 ltac:(simpl; auto)).
Defined.
